(** * Sharded pagination: [src/modules/shared/pagination.ts]

    A shallow embedding of the pagination helpers of the record-serving API
    ([getPage], [queryParameters], [getNextPage], [nextLink],
    [parseOptionalInt] and the [PaginationPage] decorator) together with the
    properties the specification states about them, and of the client
    script that follows the next links ([src/scripts/top-workplaces.ts]).

    Conventions.
    - A JavaScript [number] is an integer or [NaN]: the only numbers that
      reach these helpers come from [parseInt], from the integer constants
      and from integer arithmetic on those.  Integers are unbounded here,
      which is what the code computes as long as its values are safe
      integers ([JS.isSafeInteger]): beyond [JS.MAX_SAFE_INTEGER] the
      code's doubles round, print in exponent form and overflow.  The
      statements that depend on the value of a sum or a product, or on the
      text of a number, carry that bound.
    - [undefined] is [None].
    - An [async] function that awaits the collection is a computation in the
      [result] monad: a rejected promise is [Rejected], and it propagates. *)

From Stdlib Require Import ZArith List String Ascii Bool Lia.
From Stdlib Require Import Sorted Permutation.
Import ListNotations.

Local Open Scope string_scope.
Local Open Scope Z_scope.

(** ** JavaScript numbers *)

Module JS.

Inductive number : Type :=
| Int (z : Z)
| NaN.

(** [n ? a : b] takes the first branch unless [n] is [0] or [NaN]. *)
Definition truthy (n : number) : bool :=
  match n with
  | Int z => negb (z =? 0)
  | NaN => false
  end.

Definition add (a b : number) : number :=
  match a, b with
  | Int x, Int y => Int (x + y)
  | _, _ => NaN
  end.

Definition sub (a b : number) : number :=
  match a, b with
  | Int x, Int y => Int (x - y)
  | _, _ => NaN
  end.

Definition mul (a b : number) : number :=
  match a, b with
  | Int x, Int y => Int (x * y)
  | _, _ => NaN
  end.

(** [a > b]; every comparison with [NaN] is false. *)
Definition gtb (a b : number) : bool :=
  match a, b with
  | Int x, Int y => y <? x
  | _, _ => false
  end.

(** *** Number to string, as a template literal renders it *)

Definition digit_char (d : Z) : ascii :=
  match d with
  | 0 => "0" | 1 => "1" | 2 => "2" | 3 => "3" | 4 => "4"
  | 5 => "5" | 6 => "6" | 7 => "7" | 8 => "8" | _ => "9"
  end%char.

(** Decimal digits of [n], most significant first, in front of [acc]. *)
Fixpoint digits_of (fuel : nat) (n : Z) (acc : string) : string :=
  match fuel with
  | O => acc
  | S fuel' =>
      let acc' := String (digit_char (n mod 10)) acc in
      if n <? 10 then acc' else digits_of fuel' (n / 10) acc'
  end.

(** One more than the binary length: at least the decimal length. *)
Definition digit_fuel (n : Z) : nat := S (Z.to_nat (Z.log2 n)).

Definition natural_toString (n : Z) : string :=
  digits_of (digit_fuel n) n EmptyString.

Definition toString (n : number) : string :=
  match n with
  | NaN => "NaN"
  | Int z => if z <? 0 then String "-" (natural_toString (- z))
             else natural_toString z
  end.

(** *** [parseInt(s, 10)] *)

Definition is_digit (c : ascii) : bool :=
  let n := nat_of_ascii c in (48 <=? n)%nat && (n <=? 57)%nat.

Definition digit_value (c : ascii) : Z := Z.of_nat (nat_of_ascii c) - 48.

(** The ASCII part of StrWhiteSpaceChar: TAB, LF, VT, FF, CR, SP. *)
Definition is_space (c : ascii) : bool :=
  let n := nat_of_ascii c in
  ((9 <=? n)%nat && (n <=? 13)%nat) || (n =? 32)%nat.

Fixpoint skip_spaces (s : string) : string :=
  match s with
  | String c r => if is_space c then skip_spaces r else s
  | EmptyString => EmptyString
  end.

(** Reads the longest prefix of decimal digits, the value so far in [acc]. *)
Fixpoint parse_digits (s : string) (acc : Z) : Z :=
  match s with
  | String c r =>
      if is_digit c then parse_digits r (acc * 10 + digit_value c) else acc
  | EmptyString => acc
  end.

Definition starts_with_digit (s : string) : bool :=
  match s with
  | String c _ => is_digit c
  | EmptyString => false
  end.

(** Leading white space is dropped, one sign is read, then the longest run
    of digits; what follows is ignored, and no digit at all gives [NaN]. *)
Definition parseInt (s : string) : number :=
  let s1 := skip_spaces s in
  let '(negative, s2) :=
    match s1 with
    | String c r =>
        if Ascii.eqb c "-" then (true, r)
        else if Ascii.eqb c "+" then (false, r)
        else (false, s1)
    | EmptyString => (false, s1)
    end in
  if starts_with_digit s2
  then let v := parse_digits s2 0 in Int (if negative then - v else v)
  else NaN.

(** *** The range in which a number is the integer it stands for

    [Number.MAX_SAFE_INTEGER] is [2^53 - 1].  Sums, differences and
    products whose operands and result are safe integers are exact in the
    code, a safe integer is printed in full decimal digits, and [parseInt]
    reads such digits back exactly. *)

Definition MAX_SAFE_INTEGER : Z := 9007199254740991.

(** [Number.isSafeInteger] *)
Definition isSafeInteger (n : number) : bool :=
  match n with
  | Int z => (- MAX_SAFE_INTEGER <=? z) && (z <=? MAX_SAFE_INTEGER)
  | NaN => false
  end.

End JS.

Import JS.

Declare Scope js_scope.
Delimit Scope js_scope with js.
Infix "+" := JS.add : js_scope.
Infix "-" := JS.sub : js_scope.
Infix "*" := JS.mul : js_scope.
Infix ">?" := JS.gtb : js_scope.

(** [a ?? b] *)
Definition nullish {A : Type} (a : option A) (b : A) : A :=
  match a with
  | Some v => v
  | None => b
  end.
Infix "??" := nullish (at level 45, left associativity).

(** ** Promises that may reject *)

Inductive result (A : Type) : Type :=
| Ok (a : A)
| Rejected (reason : string).
Arguments Ok {A} a.
Arguments Rejected {A} reason.

Definition await {A B : Type} (p : result A) (k : A -> result B) : result B :=
  match p with
  | Ok a => k a
  | Rejected e => Rejected e
  end.

Notation "x <- p ;; k" := (await p (fun x => k))
  (at level 100, p at next level, right associativity).

(** ** Data model ([shared.types.ts]) *)

Record Page : Type := mkPage
  { num : number;
    size : number;
    shard : option number }.

Record QueryParameters : Type := mkQuery
  { skip : number;
    take : number;
    where_shard : number }.

(** Something Prisma can count, such as [prisma.shift]. *)
Record CountableCollection : Type := mkCountable
  { count : QueryParameters -> result number }.

(** A Prisma delegate: countable, and it can fetch the rows of a window. *)
Record Delegate (T : Type) : Type := mkDelegate
  { countable :> CountableCollection;
    findMany : QueryParameters -> result (list T) }.
Arguments countable {T} d.
Arguments findMany {T} d q.

Record Links : Type := mkLinks
  { next : option string }.

Record PaginatedResponse (T : Type) : Type := mkResponse
  { data : list T;
    links : Links }.
Arguments mkResponse {T} data links.
Arguments data {T} p.
Arguments links {T} p.

(** ** Constants *)

Definition FIRST_PAGE : number := Int 1.
Definition PAGE_SIZE : number := Int 10.
Definition DEFAULT_SHARD : number := Int 0.
Definition PAGE_QUERY_PARAM : string := "page".
Definition SHARD_QUERY_PARAM : string := "shard".

(** ** The helpers *)

Definition getPage (pageNum shard : option number) : Page :=
  {| num := match pageNum with
            | Some n => if truthy n then n else FIRST_PAGE
            | None => FIRST_PAGE
            end;
     size := PAGE_SIZE;
     shard := shard |}.

Definition queryParameters (page : Page) : QueryParameters :=
  {| take := size page;
     skip := ((num page - Int 1) * size page)%js;
     where_shard := shard page ?? DEFAULT_SHARD |}.

Definition countOnPage (page : Page) (collection : CountableCollection)
  : result number :=
  count collection (queryParameters page).

(** A string is truthy unless it is empty. *)
Definition parseOptionalInt (value : option string) : option number :=
  match value with
  | Some EmptyString => None
  | Some s => Some (parseInt s)
  | None => None
  end.

(** The [PaginationPage] decorator, on the request's parsed query. *)
Definition PaginationPage (query : string -> option string) : Page :=
  let pageQuery := query PAGE_QUERY_PARAM in
  let shardQuery := query SHARD_QUERY_PARAM in
  let pageNum := parseOptionalInt pageQuery in
  let shardNum := parseOptionalInt shardQuery in
  getPage pageNum shardNum.

Section Pagination.

(** [MAX_SHARDS] of [shared/constants.ts]. *)
Variable MAX_SHARDS : Z.

(** The Express request and the helper that gives its URL up to the query
    string. *)
Variable Request : Type.
Variable urlWithoutQueryParameters : Request -> string.

Definition getNextPage (currentPage : Page) (collection : CountableCollection)
  : result (option Page) :=
  (* 1. Try next page in current shard *)
  let nextPageNumInCurrentShard := (num currentPage + Int 1)%js in
  let potentialNextPageInShard :=
    getPage (Some nextPageNumInCurrentShard) (shard currentPage) in
  c <- countOnPage potentialNextPageInShard collection ;;
  if (c >? Int 0)%js then Ok (Some potentialNextPageInShard)
  else
    (* 2. If no more in current shard, try first page of next shard *)
    let nextShardNum := ((shard currentPage ?? DEFAULT_SHARD) + Int 1)%js in
    if (nextShardNum >? Int MAX_SHARDS)%js then Ok None
    else
      let potentialPageInNextShard :=
        getPage (Some FIRST_PAGE) (Some nextShardNum) in
      c' <- countOnPage potentialPageInNextShard collection ;;
      if (c' >? Int 0)%js then Ok (Some potentialPageInNextShard)
      else Ok None.

Definition nextLink (nextPage : option Page) (request : Request)
  : option string :=
  match nextPage with
  | None => None
  | Some nextPage =>
      let base := urlWithoutQueryParameters request in
      let query := PAGE_QUERY_PARAM ++ "=" ++ toString (num nextPage) in
      let query :=
        match shard nextPage with
        | Some s => query ++ "&" ++ SHARD_QUERY_PARAM ++ "=" ++ toString s
        | None => query
        end in
      Some (base ++ "?" ++ query)
  end.

(** The next-page algorithm in the words of the specification (§4.3, steps
    1 to 6), to be compared with [getNextPage]: the candidates are built
    field by field from the current page. *)
Definition getNextPage_specified
  (currentPage : Page) (collection : CountableCollection)
  : result (option Page) :=
  let candidate :=
    {| num := (num currentPage + Int 1)%js;
       size := size currentPage;
       shard := shard currentPage |} in
  c <- count collection (queryParameters candidate) ;;
  if (c >? Int 0)%js then Ok (Some candidate)
  else
    let nextShard := ((shard currentPage ?? Int 0) + Int 1)%js in
    if (nextShard >? Int MAX_SHARDS)%js then Ok None
    else
      let candidate2 :=
        {| num := Int 1; size := size currentPage; shard := Some nextShard |} in
      c' <- count collection (queryParameters candidate2) ;;
      if (c' >? Int 0)%js then Ok (Some candidate2) else Ok None.

(** Modelled from the spec: the service method that assembles a response
    ([findAllPaginated] in the controller's call) is not among the sources.
    Its steps are those of §2, which the walk through a paginated request
    also lists: translate the page, fetch that window, resolve the next
    page, build the link. *)
Definition findAllPaginated {T : Type}
  (page : Page) (collection : Delegate T) (request : Request)
  : result (PaginatedResponse T) :=
  rows <- findMany collection (queryParameters page) ;;
  nextPage <- getNextPage page collection ;;
  Ok {| data := rows; links := {| next := nextLink nextPage request |} |}.

End Pagination.

Arguments nextLink {Request} urlWithoutQueryParameters nextPage request.
Arguments findAllPaginated MAX_SHARDS {Request} urlWithoutQueryParameters {T}
  page collection request.

(** ** Well-formed page addresses (§3 of the specification) *)

Definition atLeast (low : Z) (n : number) : bool :=
  match n with
  | Int z => low <=? z
  | NaN => false
  end.

(** A shard, when present, is an integer of [0 .. MAX_SHARDS]. *)
Definition shardInRange (MAX_SHARDS : Z) (s : option number) : bool :=
  match s with
  | Some (Int z) => (0 <=? z) && (z <=? MAX_SHARDS)
  | Some NaN => false
  | None => true
  end.


(** ** The request layer

    What Express hands to the decorator as [request.query] when a client
    follows a URL: the text after the first [?], cut at every [&], each piece
    cut at its first [=].  Percent escapes and repeated keys, which the links
    built here never contain, are left aside. *)

Module Url.

(** The text before the first [sep], and the text after it, if any. *)
Fixpoint split_at (sep : ascii) (s : string) : string * option string :=
  match s with
  | EmptyString => (EmptyString, None)
  | String c r =>
      if Ascii.eqb c sep then (EmptyString, Some r)
      else let '(before, after) := split_at sep r in (String c before, after)
  end.

Fixpoint split_on (sep : ascii) (s : string) : list string :=
  match s with
  | EmptyString => [EmptyString]
  | String c r =>
      if Ascii.eqb c sep then EmptyString :: split_on sep r
      else match split_on sep r with
           | first :: others => String c first :: others
           | [] => [String c EmptyString]
           end
  end.

Definition parameter (piece : string) : string * string :=
  let '(key, value) := split_at "=" piece in (key, value ?? EmptyString).

Fixpoint lookup (key : string) (parameters : list (string * string))
  : option string :=
  match parameters with
  | [] => None
  | (k, v) :: others => if String.eqb k key then Some v else lookup key others
  end.

Definition query (url : string) (key : string) : option string :=
  match snd (split_at "?" url) with
  | Some text => lookup key (map parameter (split_on "&" text))
  | None => None
  end.

(** No character of [s] is [c]. *)
Fixpoint lacks (c : ascii) (s : string) : bool :=
  match s with
  | EmptyString => true
  | String c' r => negb (Ascii.eqb c' c) && lacks c r
  end.

End Url.

(** ** An in-memory collection *)

Record Row : Type := mkRow
  { row_id : Z;
    row_shard : Z }.

Definition inShard (s : number) (r : Row) : bool :=
  match s with
  | Int z => row_shard r =? z
  | NaN => false
  end.

(** The rows from position [skip] on, [take] of them at most. *)
Definition window {A : Type} (q : QueryParameters) (rows : list A) : list A :=
  match skip q, take q with
  | Int s, Int t => firstn (Z.to_nat t) (skipn (Z.to_nat s) rows)
  | _, _ => []
  end.

Definition select (rows : list Row) (q : QueryParameters) : list Row :=
  window q (filter (inShard (where_shard q)) rows).

(** Modelled from the spec: the persistence layer is an external capability
    (§3, §6) and is not among the sources, so the scenarios of §8 run
    against a table held in memory.  Counting and fetching select the rows
    of the requested shard and keep those of the requested page, that is
    those inside the window that starts at the offset. *)
Definition table (rows : list Row) : Delegate Row :=
  {| countable :=
       {| count := fun q => Ok (Int (Z.of_nat (List.length (select rows q)))) |};
     findMany := fun q => Ok (select rows q) |}.

(** [n] rows in shard [s]. *)
Definition rowsIn (s : Z) (n : nat) : list Row :=
  map (fun i => {| row_id := Z.of_nat i; row_shard := s |}) (seq 1 n).

(** A collection that answers every count with the same number. *)
Definition always (n : Z) : CountableCollection :=
  {| count := fun _ => Ok (Int n) |}.

(** The scenarios of §8. *)
Definition scenarioA : Delegate Row := table (rowsIn 0 25).
Definition scenarioB : Delegate Row := table (rowsIn 0 5 ++ rowsIn 1 5)%list.
Definition scenarioC : Delegate Row := table (rowsIn 0 5 ++ rowsIn 2 5)%list.

(** Modelled from the spec: [urlWithoutQueryParameters] is not among the
    sources.  In the concrete examples a request is the URL it was sent to,
    and the helper keeps what comes before the first [?]. *)
Definition urlOf (request : string) : string :=
  fst (Url.split_at "?" request).

(** ** The two pages that [getNextPage] may count

    The values of its locals [potentialNextPageInShard] and
    [potentialPageInNextShard], as functions of the current page. *)

Definition potentialNextPageInShard (currentPage : Page) : Page :=
  getPage (Some (num currentPage + Int 1)%js) (shard currentPage).

Definition potentialPageInNextShard (currentPage : Page) : Page :=
  getPage (Some FIRST_PAGE)
    (Some ((shard currentPage ?? DEFAULT_SHARD) + Int 1)%js).

(** ** The client script ([src/scripts/top-workplaces.ts])

    The script follows the next links of the API until none is left, then
    ranks the active workplaces by their completed shifts.  Here the ids and
    status codes of the JSON records are integers, a [null] field is [None],
    and the loops carry fuel: [None] stands for a run that has not ended
    within it. *)

(** [Array.prototype.sort] with a comparison function: a stable sort, in
    which [x] stays in front of [y] unless [cmp x y] is positive. *)
Module JSArray.

Fixpoint insertBy {A : Type} (cmp : A -> A -> Z) (x : A) (l : list A)
  : list A :=
  match l with
  | [] => [x]
  | y :: rest => if 0 <? cmp x y then y :: insertBy cmp x rest else x :: l
  end.

Definition sortBy {A : Type} (cmp : A -> A -> Z) (l : list A) : list A :=
  fold_right (insertBy cmp) [] l.

End JSArray.

Module Workplace.
Record t : Type := make
  { id : Z;
    name : string;
    status : Z }.
End Workplace.

Module Shift.
Record t : Type := make
  { id : Z;
    startAt : string;
    endAt : string;
    workplaceId : Z;
    workerId : option Z;
    cancelledAt : option string }.
End Shift.

Module WorkplaceActivity.
Record t : Type := make
  { name : string;
    shifts : nat }.
End WorkplaceActivity.

Module ApiResponse.
Record t (T : Type) : Type := make
  { data : T;
    links : option Links }.
Arguments make {T} data links.
Arguments data {T} _.
Arguments links {T} _.
End ApiResponse.

Module Client.

Definition API_URL : string := "http://localhost:3000".

(** [data.links?.next || ''] *)
Definition nextUrl {T : Type} (response : ApiResponse.t T) : string :=
  match ApiResponse.links response with
  | Some l => match next l with
              | Some url => url
              | None => EmptyString
              end
  | None => EmptyString
  end.

(** The loop of [fetchAllWorkplaces] and [fetchAllShifts], from [url] on and
    with the rows gathered so far.  [fetch] answers a URL with the parsed
    body, or rejects; a rejection is caught and ends the loop. *)
Fixpoint fetchAll {T : Type}
  (fetch : string -> result (ApiResponse.t (list T)))
  (fuel : nat) (url : string) (rows : list T) {struct fuel}
  : option (list T) :=
  match url with
  | EmptyString => Some rows
  | _ =>
      match fuel with
      | O => None
      | S fuel' =>
          match fetch url with
          | Ok response =>
              fetchAll fetch fuel' (nextUrl response)
                (rows ++ ApiResponse.data response)%list
          | Rejected _ => Some rows
          end
      end
  end.

Definition fetchAllWorkplaces
  (fetch : string -> result (ApiResponse.t (list Workplace.t))) (fuel : nat)
  : option (list Workplace.t) :=
  fetchAll fetch fuel (API_URL ++ "/workplaces") [].

Definition fetchAllShifts
  (fetch : string -> result (ApiResponse.t (list Shift.t))) (fuel : nat)
  : option (list Shift.t) :=
  fetchAll fetch fuel (API_URL ++ "/shifts") [].

(** The shifts counted for a workplace: its own, with a worker assigned and
    not cancelled. *)
Definition completedAt (workplace : Workplace.t) (shift : Shift.t) : bool :=
  (Shift.workplaceId shift =? Workplace.id workplace)
  && match Shift.workerId shift with Some _ => true | None => false end
  && match Shift.cancelledAt shift with None => true | Some _ => false end.

Definition activeWorkplaces (workplaces : list Workplace.t)
  : list Workplace.t :=
  filter (fun workplace => Workplace.status workplace =? 0) workplaces.

Definition workplaceActivity
  (workplaces : list Workplace.t) (shifts : list Shift.t)
  : list WorkplaceActivity.t :=
  map (fun workplace =>
         let completedShifts :=
           List.length (filter (completedAt workplace) shifts) in
         {| WorkplaceActivity.name := Workplace.name workplace;
            WorkplaceActivity.shifts := completedShifts |})
    (activeWorkplaces workplaces).

(** What [getTopWorkplaces] prints, entry by entry: the activities sorted by
    number of shifts, largest first, and cut to three. *)
Definition topWorkplaces
  (workplaces : list Workplace.t) (shifts : list Shift.t)
  : list WorkplaceActivity.t :=
  let sorted :=
    JSArray.sortBy
      (fun a b => Z.of_nat (WorkplaceActivity.shifts b)
                  - Z.of_nat (WorkplaceActivity.shifts a))
      (workplaceActivity workplaces shifts) in
  firstn 3 sorted.

(** The pages that the loop reads from [url] on: it follows the next links
    until a response has none (or an empty one) or a request fails. *)
Inductive Walk {T : Type} (fetch : string -> result (ApiResponse.t (list T)))
  : string -> list (list T) -> Prop :=
| walk_end : Walk fetch EmptyString []
| walk_failed (url reason : string) :
    url <> EmptyString ->
    fetch url = Rejected reason ->
    Walk fetch url []
| walk_page (url : string) (response : ApiResponse.t (list T))
    (pages : list (list T)) :
    url <> EmptyString ->
    fetch url = Ok response ->
    Walk fetch (nextUrl response) pages ->
    Walk fetch url (ApiResponse.data response :: pages).

End Client.

(** ** Sample data for the client script *)

Module Sample.

Definition workplaces : list Workplace.t :=
  [ Workplace.make 1 "Mars Cafe" 0;
    Workplace.make 2 "Lunar Logistics" 0;
    Workplace.make 3 "Closed Mine" 2;
    Workplace.make 4 "Red Rock Diner" 0;
    Workplace.make 5 "Phobos Port" 0 ].

Definition shift (id workplaceId : Z) (workerId : option Z)
  (cancelledAt : option string) : Shift.t :=
  Shift.make id "2025-01-01T08:00:00Z" "2025-01-01T16:00:00Z"
    workplaceId workerId cancelledAt.

Definition shifts : list Shift.t :=
  [ shift 1 1 (Some 7) None;
    shift 2 2 (Some 7) None;
    shift 3 2 (Some 8) None;
    shift 4 2 None None;
    shift 5 3 (Some 9) None;
    shift 6 4 (Some 9) (Some "2025-01-01T07:00:00Z");
    shift 7 5 (Some 8) None;
    shift 8 5 (Some 8) None;
    shift 9 5 (Some 9) None ].

(** A server with two pages of workplaces; any other URL fails. *)
Definition twoPages (url : string)
  : result (ApiResponse.t (list Workplace.t)) :=
  if String.eqb url "http://localhost:3000/workplaces"
  then Ok (ApiResponse.make (firstn 3 workplaces)
             (Some {| next :=
                        Some "http://localhost:3000/workplaces?page=2" |}))
  else if String.eqb url "http://localhost:3000/workplaces?page=2"
  then Ok (ApiResponse.make (skipn 3 workplaces) (Some {| next := None |}))
  else Rejected "Not Found".

(** A server whose every response links back to the URL it answers. *)
Definition selfLinked (url : string)
  : result (ApiResponse.t (list Shift.t)) :=
  Ok (ApiResponse.make [] (Some {| next := Some url |})).

(** A collection that holds rows in shard 7 only. *)
Definition onlyShardSeven : CountableCollection :=
  {| count := fun q =>
       match where_shard q with
       | Int 7 => Ok (Int 3)
       | _ => Ok (Int 0)
       end |}.

(** A collection that cannot be reached. *)
Definition unreachable : CountableCollection :=
  {| count := fun _ => Rejected "connection refused" |}.

End Sample.

(** * Properties *)

(** ** Decimal rendering and [parseInt] *)

Module JSFacts.

Ltac digit_cases d :=
  let H := fresh "H" in
  assert (H : d = 0 \/ d = 1 \/ d = 2 \/ d = 3 \/ d = 4 \/
              d = 5 \/ d = 6 \/ d = 7 \/ d = 8 \/ d = 9) by lia;
  repeat (destruct H as [H | H]; [subst d; try reflexivity |]);
  try (subst d; reflexivity).

Lemma digit_char_is_digit (d : Z) :
  0 <= d < 10 -> is_digit (digit_char d) = true.
Proof. intros Hd. digit_cases d. Qed.

Lemma digit_value_char (d : Z) :
  0 <= d < 10 -> digit_value (digit_char d) = d.
Proof. intros Hd. digit_cases d. Qed.

Lemma mod10_digit (n : Z) : 0 <= n mod 10 < 10.
Proof. apply Z.mod_pos_bound. lia. Qed.

(** A digit is neither a sign, nor white space, nor a URL separator. *)
Lemma digit_is_plain (c : ascii) :
  is_digit c = true ->
  Ascii.eqb c "-" = false /\ Ascii.eqb c "+" = false /\
  is_space c = false /\
  Ascii.eqb c "&" = false /\ Ascii.eqb c "=" = false.
Proof.
  destruct c as [[] [] [] [] [] [] [] []]; vm_compute; intros H;
    try discriminate H; repeat split.
Qed.

Lemma parse_digits_step (c : ascii) (r : string) (acc : Z) :
  is_digit c = true ->
  parse_digits (String c r) acc = parse_digits r (acc * 10 + digit_value c).
Proof. intros H. simpl. now rewrite H. Qed.

(** Reading back the digits of [n] in front of [rest] shifts the value read
    so far by a power of ten and adds [n]. *)
Lemma parse_digits_of (fuel : nat) :
  forall (n : Z) (rest : string) (acc : Z),
    0 <= n < 2 ^ Z.of_nat fuel ->
    exists k, parse_digits (digits_of fuel n rest) acc
              = parse_digits rest (acc * k + n).
Proof.
  induction fuel as [| fuel IH]; intros n rest acc Hn.
  - exists 1. simpl in *. replace n with 0 by lia. f_equal. lia.
  - cbn [digits_of]. pose proof (mod10_digit n) as Hd.
    destruct (n <? 10) eqn:Hlt.
    + apply Z.ltb_lt in Hlt. exists 10.
      rewrite parse_digits_step by now apply digit_char_is_digit.
      rewrite digit_value_char by assumption.
      rewrite Z.mod_small by lia. reflexivity.
    + apply Z.ltb_ge in Hlt.
      assert (Hq : 0 <= n / 10 < 2 ^ Z.of_nat fuel).
      { split; [apply Z.div_pos; lia |].
        apply Z.div_lt_upper_bound; [lia |].
        rewrite Nat2Z.inj_succ, Z.pow_succ_r in Hn by lia. lia. }
      destruct (IH (n / 10) (String (digit_char (n mod 10)) rest) acc Hq)
        as [k Hk].
      exists (k * 10). rewrite Hk.
      rewrite parse_digits_step by now apply digit_char_is_digit.
      rewrite digit_value_char by assumption.
      f_equal. pose proof (Z.div_mod n 10). lia.
Qed.

Lemma digit_fuel_enough (n : Z) :
  0 <= n -> 0 <= n < 2 ^ Z.of_nat (digit_fuel n).
Proof.
  intros Hn. split; [assumption |]. unfold digit_fuel.
  rewrite Nat2Z.inj_succ, Z2Nat.id by apply Z.log2_nonneg.
  destruct (Z.eq_dec n 0) as [-> | Hnz]; [reflexivity |].
  apply Z.log2_spec. lia.
Qed.

Lemma parse_natural (n : Z) :
  0 <= n -> parse_digits (natural_toString n) 0 = n.
Proof.
  intros Hn. unfold natural_toString.
  destruct (parse_digits_of (digit_fuel n) n EmptyString 0
              (digit_fuel_enough n Hn)) as [k Hk].
  rewrite Hk. simpl. lia.
Qed.

Lemma digits_of_head (fuel : nat) :
  forall (n : Z) (rest : string),
    starts_with_digit rest = true ->
    starts_with_digit (digits_of fuel n rest) = true.
Proof.
  induction fuel as [| fuel IH]; intros n rest H; [exact H |].
  cbn [digits_of].
  assert (Hd : starts_with_digit (String (digit_char (n mod 10)) rest) = true)
    by (apply digit_char_is_digit, mod10_digit).
  destruct (n <? 10); [exact Hd | now apply IH].
Qed.

Lemma natural_starts_with_digit (n : Z) :
  starts_with_digit (natural_toString n) = true.
Proof.
  unfold natural_toString, digit_fuel. cbn [digits_of].
  assert (Hd : starts_with_digit
                 (String (digit_char (n mod 10)) EmptyString) = true)
    by (apply digit_char_is_digit, mod10_digit).
  destruct (n <? 10); [exact Hd | now apply digits_of_head].
Qed.

Lemma parseInt_digits (s : string) :
  starts_with_digit s = true -> parseInt s = Int (parse_digits s 0).
Proof.
  destruct s as [| c r]; [discriminate |]. intros H. cbn in H.
  destruct (digit_is_plain c H) as (Hm & Hp & Hs & _).
  unfold parseInt. cbn [skip_spaces]. rewrite Hs, Hm, Hp.
  cbn [starts_with_digit]. now rewrite H.
Qed.

(** [parseInt] reads back what a template literal prints. *)
Lemma parseInt_toString (n : number) : parseInt (toString n) = n.
Proof.
  destruct n as [z |]; [| reflexivity].
  unfold toString. destruct (z <? 0) eqn:Hz.
  - apply Z.ltb_lt in Hz.
    unfold parseInt. cbn [skip_spaces].
    replace (is_space "-") with false by reflexivity.
    replace (Ascii.eqb "-" "-") with true by reflexivity.
    rewrite natural_starts_with_digit, parse_natural by lia.
    f_equal. lia.
  - apply Z.ltb_ge in Hz.
    rewrite parseInt_digits by apply natural_starts_with_digit.
    now rewrite parse_natural.
Qed.


End JSFacts.

(** ** Cutting a URL into its query parameters *)

Module UrlFacts.

Import Url.

Lemma lacks_app (c : ascii) (a b : string) :
  lacks c (a ++ b) = lacks c a && lacks c b.
Proof.
  induction a as [| c' a IH]; [reflexivity |].
  cbn [append lacks]. rewrite IH. now rewrite andb_assoc.
Qed.

Lemma split_at_app (sep : ascii) (a b : string) :
  lacks sep a = true -> split_at sep (a ++ String sep b) = (a, Some b).
Proof.
  induction a as [| c a IH]; cbn [append split_at lacks]; intros H.
  - now rewrite Ascii.eqb_refl.
  - apply andb_true_iff in H as [Hc Ha].
    apply negb_true_iff in Hc. rewrite Hc, (IH Ha). reflexivity.
Qed.

Lemma split_at_lacks (sep : ascii) (a : string) :
  lacks sep a = true -> split_at sep a = (a, None).
Proof.
  induction a as [| c a IH]; cbn [split_at lacks]; intros H; [reflexivity |].
  apply andb_true_iff in H as [Hc Ha].
  apply negb_true_iff in Hc. rewrite Hc, (IH Ha). reflexivity.
Qed.

Lemma split_on_lacks (sep : ascii) (a : string) :
  lacks sep a = true -> split_on sep a = [a].
Proof.
  induction a as [| c a IH]; cbn [split_on lacks]; intros H; [reflexivity |].
  apply andb_true_iff in H as [Hc Ha].
  apply negb_true_iff in Hc. rewrite Hc, (IH Ha). reflexivity.
Qed.

Lemma split_on_app (sep : ascii) (a b : string) :
  lacks sep a = true ->
  split_on sep (a ++ String sep b) = a :: split_on sep b.
Proof.
  induction a as [| c a IH]; cbn [append split_on lacks]; intros H.
  - now rewrite Ascii.eqb_refl.
  - apply andb_true_iff in H as [Hc Ha].
    apply negb_true_iff in Hc. rewrite Hc, (IH Ha). reflexivity.
Qed.

(** The digits written in front of [rest] add no separator to it. *)
Lemma digits_of_lacks (c : ascii) (fuel : nat) :
  is_digit c = false ->
  forall (n : Z) (rest : string),
    lacks c rest = true -> lacks c (digits_of fuel n rest) = true.
Proof.
  intros Hc. induction fuel as [| fuel IH]; intros n rest H; [exact H |].
  cbn [digits_of].
  assert (Hd : lacks c (String (digit_char (n mod 10)) rest) = true).
  { cbn [lacks]. rewrite H, andb_true_r. apply negb_true_iff.
    destruct (Ascii.eqb (digit_char (n mod 10)) c) eqn:E; [| reflexivity].
    apply Ascii.eqb_eq in E. subst c.
    rewrite JSFacts.digit_char_is_digit in Hc by apply JSFacts.mod10_digit.
    discriminate Hc. }
  destruct (n <? 10); [exact Hd | now apply IH].
Qed.

Lemma toString_lacks (c : ascii) (n : number) :
  c = "&"%char \/ c = "="%char -> lacks c (toString n) = true.
Proof.
  intros Hc.
  assert (Hdigit : is_digit c = false) by (destruct Hc; subst c; reflexivity).
  assert (Hminus : Ascii.eqb "-" c = false)
    by (destruct Hc; subst c; reflexivity).
  destruct n as [z |]; [| destruct Hc; subst c; reflexivity].
  unfold toString, natural_toString.
  destruct (z <? 0).
  - cbn [lacks]. rewrite Hminus. cbn [negb andb].
    now apply digits_of_lacks.
  - now apply digits_of_lacks.
Qed.

(** The query of [base?text] is read from [text] alone. *)
Lemma query_of_link (base text key : string) :
  lacks "?" base = true ->
  query (base ++ "?" ++ text) key
  = lookup key (map parameter (split_on "&" text)).
Proof.
  intros H. unfold query.
  change ("?" ++ text) with (String "?" text).
  now rewrite split_at_app.
Qed.

Lemma parameter_of (key value : string) :
  lacks "=" key = true -> parameter (key ++ "=" ++ value) = (key, value).
Proof.
  intros H. unfold parameter.
  change ("=" ++ value) with (String "=" value).
  now rewrite split_at_app.
Qed.

End UrlFacts.

(** ** Page resolution and query translation *)


Lemma getPage_of_truthy (n : number) (shard : option number) :
  truthy n = true ->
  getPage (Some n) shard = {| num := n; size := PAGE_SIZE; shard := shard |}.
Proof. intros Hn. unfold getPage. now rewrite Hn. Qed.

(** C6. For every page address, [queryParameters] gives [take = size],
    [skip = (num - 1) * size] and the page's shard as filter, or
    [DEFAULT_SHARD] when the page has none.  For a number [n] and a size [s]
    that are safe integers with a safe product, [skip] is the integer
    [(n - 1) * s]; and it is [0] for page number [1].  The function is
    total and pure: it is defined on every page and returns a plain value. *)
Theorem queryParameters_translation (page : Page) :
  take (queryParameters page) = size page /\
  skip (queryParameters page) = ((num page - Int 1) * size page)%js /\
  where_shard (queryParameters page)
  = match shard page with Some s => s | None => DEFAULT_SHARD end /\
  (forall n s : Z,
      num page = Int n -> size page = Int s ->
      isSafeInteger (Int n) = true ->
      isSafeInteger (Int s) = true ->
      isSafeInteger (Int ((n - 1) * s)) = true ->
      skip (queryParameters page) = Int ((n - 1) * s)) /\
  (forall s : Z,
      num page = Int 1 -> size page = Int s ->
      skip (queryParameters page) = Int 0).
Proof.
  unfold queryParameters. cbn [take skip where_shard].
  repeat split.
  - intros n s -> -> _ _ _. reflexivity.
  - intros s -> ->. reflexivity.
Qed.

(** C8, as amended.  [getPage] keeps a raw page number that is an integer
    other than [0]; it puts [1] when the raw page number is absent, [0] or
    [NaN]; the size is [PAGE_SIZE]; the raw shard is passed through
    unchanged, absent included.  It is defined on every input. *)
Theorem getPage_resolution (rawShard : option number) :
  (forall z : Z, z <> 0 -> num (getPage (Some (Int z)) rawShard) = Int z) /\
  num (getPage None rawShard) = Int 1 /\
  num (getPage (Some (Int 0)) rawShard) = Int 1 /\
  num (getPage (Some NaN) rawShard) = Int 1 /\
  (forall pageNum : option number,
      size (getPage pageNum rawShard) = PAGE_SIZE /\
      shard (getPage pageNum rawShard) = rawShard).
Proof.
  repeat split.
  intros z Hz. unfold getPage. cbn [num truthy].
  apply Z.eqb_neq in Hz. now rewrite Hz.
Qed.

(** C10. Raw page number [0] resolves like an absent page number, whatever
    the shard, so it is translated to offset [0]. *)
Theorem getPage_zero_is_absent (rawShard : option number) :
  getPage (Some (Int 0)) rawShard = getPage None rawShard /\
  num (getPage (Some (Int 0)) rawShard) = Int 1 /\
  skip (queryParameters (getPage (Some (Int 0)) rawShard)) = Int 0.
Proof. repeat split. Qed.

(** ** The helpers of [pagination.ts] *)

Section Properties.

Variable MAX_SHARDS : Z.
Variable Request : Type.
Variable urlWithoutQueryParameters : Request -> string.

(** Every page that [getNextPage] returns was built by [getPage]: it is
    the following page of the same shard, found non-empty, or the first
    page of the following shard, which is no greater than [MAX_SHARDS]. *)
Lemma getNextPage_found (currentPage nextPage : Page)
  (collection : CountableCollection) :
  getNextPage MAX_SHARDS currentPage collection = Ok (Some nextPage) ->
  nextPage = getPage (Some (num currentPage + Int 1)%js) (shard currentPage)
  \/ (nextPage
      = getPage (Some FIRST_PAGE)
          (Some ((shard currentPage ?? DEFAULT_SHARD) + Int 1)%js)
      /\ ((shard currentPage ?? DEFAULT_SHARD) + Int 1 >? Int MAX_SHARDS)%js
         = false).
Proof.
  unfold getNextPage, await.
  destruct (countOnPage _ collection) as [c |]; [| discriminate].
  destruct (c >? Int 0)%js.
  - intros [= <-]. now left.
  - destruct (_ >? Int MAX_SHARDS)%js eqn:Hmax; [discriminate |].
    destruct (countOnPage _ collection) as [c' |]; [| discriminate].
    destruct (c' >? Int 0)%js; [| discriminate].
    intros [= <-]. now right.
Qed.

(** A count that rejects makes [getNextPage] reject with the same reason. *)
Lemma getNextPage_rejects (currentPage : Page)
  (collection : CountableCollection) (reason : string) :
  countOnPage
    (getPage (Some (num currentPage + Int 1)%js) (shard currentPage))
    collection = Rejected reason ->
  getNextPage MAX_SHARDS currentPage collection = Rejected reason.
Proof. intros H. unfold getNextPage. now rewrite H. Qed.

(** The text that [nextLink] builds after the [?]. *)
Lemma nextLink_text (request : Request) (page : Page) :
  nextLink urlWithoutQueryParameters (Some page) request
  = Some (urlWithoutQueryParameters request ++ "?" ++
          match shard page with
          | Some s => (PAGE_QUERY_PARAM ++ "=" ++ toString (num page))
                      ++ "&" ++ SHARD_QUERY_PARAM ++ "=" ++ toString s
          | None => PAGE_QUERY_PARAM ++ "=" ++ toString (num page)
          end).
Proof. reflexivity. Qed.

(** The query parameters of a link are the page number and, when the page
    has one, the shard. *)
Lemma link_parameters (request : Request) (page : Page) (url : string) :
  Url.lacks "?" (urlWithoutQueryParameters request) = true ->
  nextLink urlWithoutQueryParameters (Some page) request = Some url ->
  Url.query url PAGE_QUERY_PARAM = Some (toString (num page)) /\
  Url.query url SHARD_QUERY_PARAM = option_map toString (shard page).
Proof.
  intros Hbase Hlink.
  pose proof (nextLink_text request page) as Htext.
  rewrite Hlink in Htext. apply (f_equal (fun o => o ?? url)) in Htext.
  unfold nullish in Htext. subst url.
  rewrite !UrlFacts.query_of_link by assumption.
  assert (Hpage : Url.lacks "&" (PAGE_QUERY_PARAM ++ "=" ++ toString (num page))
                  = true).
  { rewrite !UrlFacts.lacks_app, UrlFacts.toString_lacks by now left.
    reflexivity. }
  destruct (shard page) as [s |]; cbn [option_map].
  - change ("&" ++ SHARD_QUERY_PARAM ++ "=" ++ toString s)
      with (String "&" (SHARD_QUERY_PARAM ++ "=" ++ toString s)).
    rewrite UrlFacts.split_on_app by assumption.
    rewrite UrlFacts.split_on_lacks.
    2:{ rewrite !UrlFacts.lacks_app, UrlFacts.toString_lacks by now left.
        reflexivity. }
    cbn [map]. rewrite !UrlFacts.parameter_of by reflexivity.
    split; reflexivity.
  - rewrite UrlFacts.split_on_lacks by assumption.
    cbn [map]. rewrite UrlFacts.parameter_of by reflexivity.
    split; reflexivity.
Qed.



(** C1, as amended.  For a current page of size [PAGE_SIZE] whose following
    page number [num + 1] is neither [0] nor [NaN], and for every countable
    collection, [getNextPage] returns exactly what the algorithm of the
    specification returns: the candidate in the same shard if its count is
    positive, else nothing when the following shard exceeds [MAX_SHARDS],
    else the first page of the following shard if its count is positive,
    else nothing.  A count that rejects makes both reject alike. *)
Theorem getNextPage_follows_specification
  (currentPage : Page) (collection : CountableCollection) :
  size currentPage = PAGE_SIZE ->
  truthy (num currentPage + Int 1)%js = true ->
  getNextPage MAX_SHARDS currentPage collection
  = getNextPage_specified MAX_SHARDS currentPage collection.
Proof.
  intros Hsize Hnum. unfold getNextPage, getNextPage_specified, countOnPage.
  rewrite getPage_of_truthy by assumption. rewrite Hsize.
  reflexivity.
Qed.

(** C9. From a current page whose number is at least [1] and whose shard,
    when present, lies in [0 .. MAX_SHARDS], every page that [getNextPage]
    returns has a number of at least [1] (the current number plus one, or
    [1]), size [PAGE_SIZE], and a shard in [0 .. MAX_SHARDS]. *)
Theorem getNextPage_wellFormed
  (currentPage nextPage : Page) (collection : CountableCollection) :
  atLeast 1 (num currentPage) = true ->
  shardInRange MAX_SHARDS (shard currentPage) = true ->
  getNextPage MAX_SHARDS currentPage collection = Ok (Some nextPage) ->
  atLeast 1 (num nextPage) = true /\
  (num nextPage = (num currentPage + Int 1)%js \/ num nextPage = Int 1) /\
  size nextPage = PAGE_SIZE /\
  shardInRange MAX_SHARDS (shard nextPage) = true.
Proof.
  intros Hnum Hshard Hnext.
  destruct (num currentPage) as [n |] eqn:En; [| discriminate Hnum].
  cbn [atLeast] in Hnum. apply Z.leb_le in Hnum.
  destruct (getNextPage_found _ _ _ Hnext) as [-> | [-> Hmax]].
  - rewrite En. cbn [add].
    rewrite getPage_of_truthy
      by (cbn [truthy]; apply negb_true_iff, Z.eqb_neq; lia).
    cbn [num size shard atLeast]. repeat split; auto.
    apply Z.leb_le. lia.
  - cbn [getPage num size shard truthy FIRST_PAGE atLeast Z.eqb negb].
    repeat split; auto.
    destruct (shard currentPage) as [[z |] |]; cbn in Hshard, Hmax |- *;
      try discriminate Hshard.
    + apply andb_true_iff in Hshard as [Hlo Hhi].
      apply Z.leb_le in Hlo. apply Z.ltb_ge in Hmax.
      apply andb_true_iff. split; apply Z.leb_le; lia.
    + apply Z.ltb_ge in Hmax. apply Z.leb_le. exact Hmax.
Qed.

(** C7.  A request with an explicit shard above [MAX_SHARDS], on a
    collection that holds nothing in the shards above [MAX_SHARDS]: the
    shard is looked up as given, no next page is found, and the response
    is produced, with no data and no next link. *)
Theorem shard_beyond_max_is_empty (T : Type)
  (pageNum : option number) (s : Z)
  (collection : Delegate T) (request : Request) :
  MAX_SHARDS < s ->
  (forall (q : QueryParameters) (z : Z),
      where_shard q = Int z -> MAX_SHARDS < z ->
      count collection q = Ok (Int 0) /\ findMany collection q = Ok []) ->
  where_shard (queryParameters (getPage pageNum (Some (Int s)))) = Int s /\
  getNextPage MAX_SHARDS (getPage pageNum (Some (Int s))) collection
  = Ok None /\
  findAllPaginated MAX_SHARDS urlWithoutQueryParameters
    (getPage pageNum (Some (Int s))) collection request
  = Ok {| data := []; links := {| next := None |} |}.
Proof.
  intros Hs Hempty.
  assert (Hnext : getNextPage MAX_SHARDS (getPage pageNum (Some (Int s)))
                    collection = Ok None).
  { unfold getNextPage, countOnPage.
    destruct (Hempty (queryParameters
                        (getPage (Some (num (getPage pageNum (Some (Int s)))
                                        + Int 1)%js)
                           (shard (getPage pageNum (Some (Int s))))))
                s eq_refl Hs) as [-> _].
    cbn [await gtb Z.ltb Z.compare shard getPage nullish add].
    replace (MAX_SHARDS <? s + 1) with true
      by (symmetry; apply Z.ltb_lt; lia).
    reflexivity. }
  split; [reflexivity |]. split; [exact Hnext |].
  unfold findAllPaginated. rewrite Hnext.
  destruct (Hempty (queryParameters (getPage pageNum (Some (Int s))))
              s eq_refl Hs) as [_ ->].
  reflexivity.
Qed.

(** C3, as amended.  A request without a shard is translated with the
    filter [DEFAULT_SHARD]; and the next link, when there is one, has no
    [shard] parameter exactly when the request had no shard and the next
    page is the following page of the same shard.  (A link to the first page
    of the following shard always names that shard.) *)
Theorem next_link_omits_shard
  (pageNum rawShard : option number) (collection : CountableCollection)
  (request : Request) (nextPage : Page) (url : string) :
  Url.lacks "?" (urlWithoutQueryParameters request) = true ->
  getNextPage MAX_SHARDS (getPage pageNum rawShard) collection
  = Ok (Some nextPage) ->
  nextLink urlWithoutQueryParameters (Some nextPage) request = Some url ->
  (rawShard = None ->
   where_shard (queryParameters (getPage pageNum rawShard)) = DEFAULT_SHARD) /\
  (Url.query url SHARD_QUERY_PARAM = None <->
   rawShard = None /\
   nextPage
   = getPage (Some (num (getPage pageNum rawShard) + Int 1)%js) None).
Proof.
  intros Hbase Hnext Hlink. split; [now intros -> |].
  destruct (link_parameters _ _ _ Hbase Hlink) as [_ Hs]. rewrite Hs.
  destruct (getNextPage_found _ _ _ Hnext) as [-> | [-> _]].
  - cbn [shard getPage]. split.
    + destruct rawShard; [discriminate | now split].
    + now intros [-> _].
  - cbn [shard getPage option_map]. split; [discriminate |].
    intros [_ H]. discriminate H.
Qed.


End Properties.

(** ** The in-memory collection *)

Lemma window_nil {A : Type} (q : QueryParameters) : window q (@nil A) = [].
Proof.
  unfold window. destruct (skip q), (take q); try reflexivity.
  rewrite skipn_nil. apply firstn_nil.
Qed.

Lemma filter_other_shard (rows : list Row) (bound z : Z) :
  forallb (fun r => row_shard r <=? bound) rows = true ->
  bound < z ->
  filter (inShard (Int z)) rows = [].
Proof.
  intros Hrows Hz. induction rows as [| r rows IH]; [reflexivity |].
  cbn [forallb] in Hrows. apply andb_true_iff in Hrows as [Hr Hrows].
  apply Z.leb_le in Hr. cbn [filter inShard].
  replace (row_shard r =? z) with false by (symmetry; apply Z.eqb_neq; lia).
  now apply IH.
Qed.

Lemma filter_rowsIn_other (s z : Z) (n : nat) :
  s <> z -> filter (inShard (Int z)) (rowsIn s n) = [].
Proof.
  intros Hs. unfold rowsIn.
  induction (seq 1 n) as [| i l IH]; [reflexivity |].
  cbn [map filter inShard row_shard].
  apply Z.eqb_neq in Hs. now rewrite Hs.
Qed.

(** A table whose rows all lie in shards up to [bound] answers every query
    on a shard above [bound] with nothing. *)
Lemma table_empty_above (rows : list Row) (bound : Z) :
  forallb (fun r => row_shard r <=? bound) rows = true ->
  forall (q : QueryParameters) (z : Z),
    where_shard q = Int z -> bound < z ->
    count (table rows) q = Ok (Int 0) /\ findMany (table rows) q = Ok [].
Proof.
  intros Hrows q z Hq Hz.
  assert (Hsel : select rows q = []).
  { unfold select. rewrite Hq, (filter_other_shard rows bound z) by assumption.
    apply window_nil. }
  cbn [table count countable findMany]. now rewrite Hsel.
Qed.

(** ** Scenarios *)

(** Scenario A: 25 rows, all in shard 0, pages of 10.  Page 1 is followed
    by page 2, page 2 by page 3, and page 3 by nothing. *)
Example scenarioA_pages :
  getNextPage 2 (getPage (Some (Int 1)) (Some (Int 0))) scenarioA
  = Ok (Some (getPage (Some (Int 2)) (Some (Int 0)))) /\
  getNextPage 2 (getPage (Some (Int 2)) (Some (Int 0))) scenarioA
  = Ok (Some (getPage (Some (Int 3)) (Some (Int 0)))) /\
  getNextPage 2 (getPage (Some (Int 3)) (Some (Int 0))) scenarioA = Ok None.
Proof. repeat split. Qed.

(** C5.  Scenario B: shard 0 holds 5 rows and shard 1 holds 5 rows, the page
    size is 10 and [MAX_SHARDS] is 1.  After page 1 of shard 0 comes page 1
    of shard 1. *)
Theorem scenarioB_rollover :
  count scenarioB {| skip := Int 0; take := Int 10; where_shard := Int 0 |}
  = Ok (Int 5) /\
  count scenarioB {| skip := Int 0; take := Int 10; where_shard := Int 1 |}
  = Ok (Int 5) /\
  getNextPage 1 {| num := Int 1; size := Int 10; shard := Some (Int 0) |}
    scenarioB
  = Ok (Some {| num := Int 1; size := Int 10; shard := Some (Int 1) |}).
Proof. repeat split. Qed.

(** C2.  Scenario C: shard 0 holds 5 rows, shard 1 none and shard 2 holds 5
    rows, the page size is 10 and [MAX_SHARDS] is 2.  After page 1 of shard 0
    no next page is found, although shard 2 holds rows: only the shard that
    follows is probed, so the answer is the same however many rows shard 2
    holds. *)
Theorem scenarioC_skipped_shard :
  count scenarioC {| skip := Int 0; take := Int 10; where_shard := Int 0 |}
  = Ok (Int 5) /\
  count scenarioC {| skip := Int 0; take := Int 10; where_shard := Int 1 |}
  = Ok (Int 0) /\
  count scenarioC {| skip := Int 0; take := Int 10; where_shard := Int 2 |}
  = Ok (Int 5) /\
  getNextPage 2 {| num := Int 1; size := Int 10; shard := Some (Int 0) |}
    scenarioC
  = Ok None /\
  (forall n : nat,
      getNextPage 2 {| num := Int 1; size := Int 10; shard := Some (Int 0) |}
        (table (rowsIn 0 5 ++ rowsIn 2 n)%list)
      = Ok None).
Proof.
  repeat split. intros n.
  unfold getNextPage, countOnPage, table, select.
  cbn [count countable queryParameters getPage num size shard add truthy
       Z.add Pos.add Z.eqb negb nullish where_shard FIRST_PAGE DEFAULT_SHARD].
  rewrite !filter_app, !(filter_rowsIn_other 2) by discriminate.
  reflexivity.
Qed.

(** ** Where the code departs from the specification's wording *)

(** C1 as stated fails.  For the request [?page=-1&shard=0] the code probes
    and returns page 1, where the stated candidate is page 0; and from a
    page of size 5 the code returns a page of size [PAGE_SIZE], where the
    stated candidate keeps size 5. *)
Lemma getNextPage_departs_from_specification :
  (getNextPage 2 (getPage (Some (Int (-1))) (Some (Int 0))) (always 1)
   = Ok (Some {| num := Int 1; size := Int 10; shard := Some (Int 0) |}) /\
   getNextPage_specified 2 (getPage (Some (Int (-1))) (Some (Int 0))) (always 1)
   = Ok (Some {| num := Int 0; size := Int 10; shard := Some (Int 0) |}) /\
   getNextPage 2 (getPage (Some (Int (-1))) (Some (Int 0))) (always 1)
   <> getNextPage_specified 2 (getPage (Some (Int (-1))) (Some (Int 0)))
        (always 1)) /\
  (getNextPage 2 {| num := Int 1; size := Int 5; shard := Some (Int 0) |}
     scenarioA
   = Ok (Some {| num := Int 2; size := Int 10; shard := Some (Int 0) |}) /\
   getNextPage_specified 2
     {| num := Int 1; size := Int 5; shard := Some (Int 0) |} scenarioA
   = Ok (Some {| num := Int 2; size := Int 5; shard := Some (Int 0) |}) /\
   getNextPage 2 {| num := Int 1; size := Int 5; shard := Some (Int 0) |}
     scenarioA
   <> getNextPage_specified 2
        {| num := Int 1; size := Int 5; shard := Some (Int 0) |} scenarioA).
Proof. repeat split; discriminate. Qed.

(** C3 as stated fails.  A request without a shard, in scenario B: the next
    page is the first page of shard 1, and its link carries [shard=1]
    although the request had no shard. *)
Lemma rollover_link_names_shard :
  Url.query "http://localhost:3000/shifts" SHARD_QUERY_PARAM = None /\
  getNextPage 1 (PaginationPage (Url.query "http://localhost:3000/shifts"))
    scenarioB
  = Ok (Some {| num := Int 1; size := Int 10; shard := Some (Int 1) |}) /\
  nextLink urlOf
    (Some {| num := Int 1; size := Int 10; shard := Some (Int 1) |})
    "http://localhost:3000/shifts"
  = Some "http://localhost:3000/shifts?page=1&shard=1" /\
  Url.query "http://localhost:3000/shifts?page=1&shard=1" SHARD_QUERY_PARAM
  = Some "1" /\
  ~ (Url.query "http://localhost:3000/shifts?page=1&shard=1" SHARD_QUERY_PARAM
     = None
     <-> parseOptionalInt
           (Url.query "http://localhost:3000/shifts" SHARD_QUERY_PARAM)
         = None).
Proof.
  repeat split.
  intros [_ H]. specialize (H eq_refl). discriminate H.
Qed.

(** C8 as stated fails.  The raw page number [0] is present, yet the page
    gets number [1], not [0]. *)
Lemma getPage_zero_page :
  getPage (Some (Int 0)) None
  = {| num := Int 1; size := PAGE_SIZE; shard := None |} /\
  getPage (Some (Int 0)) None
  <> {| num := Int 0; size := PAGE_SIZE; shard := None |}.
Proof. split; [reflexivity | discriminate]. Qed.

(** ** Instances *)

Lemma queryParameters_translation_witness :
  (num (getPage (Some (Int 3)) None) = Int 3 /\
   size (getPage (Some (Int 3)) None) = Int 10 /\
   isSafeInteger (Int 3) = true /\
   isSafeInteger (Int 10) = true /\
   isSafeInteger (Int ((3 - 1) * 10)) = true /\
   skip (queryParameters (getPage (Some (Int 3)) None)) = Int 20) /\
  (num (getPage None None) = Int 1 /\
   size (getPage None None) = Int 10 /\
   skip (queryParameters (getPage None None)) = Int 0).
Proof.
  split.
  - do 5 (split; [reflexivity |]).
    exact (proj1 (proj2 (proj2 (proj2
             (queryParameters_translation (getPage (Some (Int 3)) None)))))
             3 10 eq_refl eq_refl eq_refl eq_refl eq_refl).
  - split; [reflexivity |]. split; [reflexivity |].
    exact (proj2 (proj2 (proj2 (proj2
             (queryParameters_translation (getPage None None)))))
             10 eq_refl eq_refl).
Defined.

Lemma getPage_resolution_witness :
  7 <> 0 /\ num (getPage (Some (Int 7)) (Some (Int 3))) = Int 7.
Proof.
  split; [discriminate |].
  apply (proj1 (getPage_resolution (Some (Int 3)))). discriminate.
Defined.

Lemma getNextPage_follows_specification_witness :
  size (getPage (Some (Int 1)) (Some (Int 0))) = PAGE_SIZE /\
  truthy (num (getPage (Some (Int 1)) (Some (Int 0))) + Int 1)%js = true /\
  getNextPage 1 (getPage (Some (Int 1)) (Some (Int 0))) scenarioB
  = getNextPage_specified 1 (getPage (Some (Int 1)) (Some (Int 0))) scenarioB.
Proof.
  split; [reflexivity |]. split; [reflexivity |].
  apply getNextPage_follows_specification; reflexivity.
Defined.

Lemma getNextPage_wellFormed_witness :
  atLeast 1 (Int 1) = true /\
  shardInRange 1 (Some (Int 0)) = true /\
  getNextPage 1 {| num := Int 1; size := Int 10; shard := Some (Int 0) |}
    scenarioB
  = Ok (Some {| num := Int 1; size := Int 10; shard := Some (Int 1) |}) /\
  atLeast 1 (Int 1) = true /\
  (Int 1 = (Int 1 + Int 1)%js \/ Int 1 = Int 1) /\
  Int 10 = PAGE_SIZE /\
  shardInRange 1 (Some (Int 1)) = true.
Proof.
  split; [reflexivity |]. split; [reflexivity |]. split; [reflexivity |].
  apply (getNextPage_wellFormed 1
           {| num := Int 1; size := Int 10; shard := Some (Int 0) |}
           {| num := Int 1; size := Int 10; shard := Some (Int 1) |}
           scenarioB); reflexivity.
Defined.

Lemma shard_beyond_max_is_empty_witness :
  1 < 5 /\
  where_shard (queryParameters (getPage (Some (Int 1)) (Some (Int 5))))
  = Int 5 /\
  getNextPage 1 (getPage (Some (Int 1)) (Some (Int 5))) scenarioB = Ok None /\
  findAllPaginated 1 urlOf (getPage (Some (Int 1)) (Some (Int 5))) scenarioB
    "http://localhost:3000/shifts?page=1&shard=5"
  = Ok {| data := []; links := {| next := None |} |}.
Proof.
  split; [reflexivity |].
  apply (shard_beyond_max_is_empty 1 string urlOf Row (Some (Int 1)) 5
           scenarioB "http://localhost:3000/shifts?page=1&shard=5").
  - reflexivity.
  - apply table_empty_above. reflexivity.
Defined.

Lemma next_link_omits_shard_witness :
  Url.lacks "?" (urlOf "http://localhost:3000/shifts") = true /\
  getNextPage 2 (getPage None None) scenarioA
  = Ok (Some (getPage (Some (Int 2)) None)) /\
  nextLink urlOf (Some (getPage (Some (Int 2)) None))
    "http://localhost:3000/shifts"
  = Some "http://localhost:3000/shifts?page=2" /\
  (Url.query "http://localhost:3000/shifts?page=2" SHARD_QUERY_PARAM = None
   <-> @None number = None /\
       getPage (Some (Int 2)) None
       = getPage (Some (num (getPage None None) + Int 1)%js) None).
Proof.
  split; [reflexivity |]. split; [reflexivity |]. split; [reflexivity |].
  apply (next_link_omits_shard 2 string urlOf None None scenarioA
           "http://localhost:3000/shifts"); reflexivity.
Defined.


(** * Further properties of the helpers *)

Section NextPage.

Variable MAX_SHARDS : Z.

(** X1.  Progress: from a current page whose number is a safe integer and
    whose shard ([0] if absent) is a safe integer, a page that [getNextPage]
    returns comes strictly later: it has the same shard and a greater
    number, or it is page [1] of the following shard, which is at most
    [MAX_SHARDS]. *)
Theorem getNextPage_advances
  (currentPage nextPage : Page) (collection : CountableCollection) (n s : Z) :
  num currentPage = Int n ->
  shard currentPage ?? DEFAULT_SHARD = Int s ->
  isSafeInteger (Int n) = true ->
  isSafeInteger (Int s) = true ->
  getNextPage MAX_SHARDS currentPage collection = Ok (Some nextPage) ->
  exists n' s' : Z,
    num nextPage = Int n' /\
    shard nextPage ?? DEFAULT_SHARD = Int s' /\
    ((s' = s /\ n < n') \/ (s' = s + 1 /\ s' <= MAX_SHARDS /\ n' = 1)).
Proof.
  intros Hn Hs _ _ Hnext.
  destruct (getNextPage_found _ _ _ _ Hnext) as [-> | [-> Hmax]].
  - rewrite Hn. cbn [add getPage num shard truthy].
    destruct (n + 1 =? 0) eqn:E; cbn [negb FIRST_PAGE].
    + apply Z.eqb_eq in E. exists 1, s. repeat split; auto. left. lia.
    + exists (n + 1), s. repeat split; auto. left. lia.
  - rewrite Hs in Hmax |- *. cbn [add gtb] in Hmax. apply Z.ltb_ge in Hmax.
    exists 1, (s + 1). repeat split. right. lia.
Qed.

(** X2.  [getNextPage] consults the collection about two pages only, the
    following page of the same shard and the first page of the following
    shard: two collections that count these two pages alike get the same
    answer, whatever else they hold. *)
Theorem getNextPage_probes_two_pages
  (currentPage : Page) (collection collection' : CountableCollection) :
  countOnPage (potentialNextPageInShard currentPage) collection
  = countOnPage (potentialNextPageInShard currentPage) collection' ->
  countOnPage (potentialPageInNextShard currentPage) collection
  = countOnPage (potentialPageInNextShard currentPage) collection' ->
  getNextPage MAX_SHARDS currentPage collection
  = getNextPage MAX_SHARDS currentPage collection'.
Proof.
  unfold potentialNextPageInShard, potentialPageInNextShard, getNextPage. intros -> ->. reflexivity.
Qed.

(** X3.  [getNextPage] rejects exactly when a count it awaits rejects, and
    with that reason: the count of the following page of the same shard, or,
    when that page is empty and the following shard is not beyond
    [MAX_SHARDS], the count of the first page of the following shard. *)
Theorem getNextPage_rejected_iff
  (currentPage : Page) (collection : CountableCollection) (reason : string) :
  getNextPage MAX_SHARDS currentPage collection = Rejected reason <->
  countOnPage (potentialNextPageInShard currentPage) collection = Rejected reason \/
  (exists c : number,
      countOnPage (potentialNextPageInShard currentPage) collection = Ok c /\
      (c >? Int 0)%js = false /\
      ((shard currentPage ?? DEFAULT_SHARD) + Int 1 >? Int MAX_SHARDS)%js
      = false /\
      countOnPage (potentialPageInNextShard currentPage) collection = Rejected reason).
Proof.
  unfold potentialNextPageInShard, potentialPageInNextShard, getNextPage, await.
  destruct (countOnPage (getPage (Some (num currentPage + Int 1)%js)
                           (shard currentPage)) collection) as [c | e].
  - destruct (c >? Int 0)%js eqn:Hc.
    + split; [discriminate |].
      intros [H | (c0 & H0 & H & _)]; [discriminate H |].
      injection H0 as <-. rewrite Hc in H. discriminate H.
    + destruct (_ >? Int MAX_SHARDS)%js eqn:Hmax.
      * split; [discriminate |].
        intros [H | (c0 & _ & _ & H & _)]; discriminate H.
      * destruct (countOnPage _ collection) as [c' | e'].
        -- split.
           ++ destruct (c' >? Int 0)%js; discriminate.
           ++ intros [H | (c0 & _ & _ & _ & H)]; discriminate H.
        -- split.
           ++ intros H. injection H as ->. right. exists c. auto.
           ++ intros [H | (c0 & _ & _ & _ & H)];
                [discriminate H | now injection H as ->].
  - split.
    + intros H. injection H as ->. now left.
    + intros [H | (c0 & H & _)]; [now injection H as -> | discriminate H].
Qed.

(** X4.  In the shard [MAX_SHARDS] and in any shard beyond it, only the
    same shard is looked at: the answer is the following page when its count
    is positive and nothing otherwise, and no other count is awaited. *)
Theorem getNextPage_in_last_shard
  (currentPage : Page) (collection : CountableCollection) (s : Z) :
  shard currentPage ?? DEFAULT_SHARD = Int s ->
  MAX_SHARDS <= s ->
  getNextPage MAX_SHARDS currentPage collection
  = (c <- countOnPage (potentialNextPageInShard currentPage) collection ;;
     Ok (if (c >? Int 0)%js then Some (potentialNextPageInShard currentPage) else None)).
Proof.
  intros Hs Hmax. unfold potentialNextPageInShard, getNextPage, await.
  destruct (countOnPage _ collection) as [c |]; [| reflexivity].
  destruct (c >? Int 0)%js; [reflexivity |].
  rewrite Hs. cbn [add gtb].
  replace (MAX_SHARDS <? s + 1) with true by (symmetry; apply Z.ltb_lt; lia).
  reflexivity.
Qed.

(** X5.  A page that [getNextPage] returns was counted and found to hold
    at least one row: no next page is announced on trust. *)
Theorem getNextPage_counted
  (currentPage nextPage : Page) (collection : CountableCollection) :
  getNextPage MAX_SHARDS currentPage collection = Ok (Some nextPage) ->
  exists c : Z, countOnPage nextPage collection = Ok (Int c) /\ 0 < c.
Proof.
  unfold getNextPage, await.
  destruct (countOnPage (potentialNextPageInShard currentPage) collection)
    as [c |] eqn:Hc; unfold potentialNextPageInShard in Hc; rewrite Hc;
    [| intros H; discriminate H].
  destruct (c >? Int 0)%js eqn:Hpos.
  - intros H. injection H as <-.
    destruct c as [z |]; [| discriminate Hpos].
    exists z. split; [exact Hc |]. now apply Z.ltb_lt in Hpos.
  - destruct (_ >? Int MAX_SHARDS)%js eqn:Hmax; [intros H; discriminate H |].
    destruct (countOnPage (potentialPageInNextShard currentPage) collection)
      as [c' |] eqn:Hc'; unfold potentialPageInNextShard in Hc'; rewrite Hc';
      [| intros H; discriminate H].
    destruct (c' >? Int 0)%js eqn:Hpos'; [| intros H; discriminate H].
    intros H. injection H as <-.
    destruct c' as [z |]; [| discriminate Hpos'].
    exists z. split; [exact Hc' |]. now apply Z.ltb_lt in Hpos'.
Qed.

End NextPage.

Section RequestAndLink.

Variable Request : Type.
Variable urlWithoutQueryParameters : Request -> string.

(** The digits read by [parseInt] from a short text give a small number. *)
Lemma digit_value_range (c : ascii) :
  is_digit c = true -> 0 <= digit_value c <= 9.
Proof.
  unfold is_digit, digit_value. intros H.
  apply andb_true_iff in H as [Hlo Hhi].
  apply Nat.leb_le in Hlo, Hhi. lia.
Qed.

Lemma parse_digits_bound (s : string) :
  forall acc : Z,
    0 <= acc ->
    0 <= parse_digits s acc < (acc + 1) * 10 ^ Z.of_nat (String.length s).
Proof.
  induction s as [| c r IH]; intros acc Hacc.
  - cbn [parse_digits String.length Z.of_nat]. lia.
  - cbn [parse_digits String.length].
    rewrite Nat2Z.inj_succ, Z.pow_succ_r by lia.
    assert (Hpow : 0 < 10 ^ Z.of_nat (String.length r))
      by (apply Z.pow_pos_nonneg; lia).
    destruct (is_digit c) eqn:Hc; [| nia].
    pose proof (digit_value_range c Hc) as Hd.
    specialize (IH (acc * 10 + digit_value c) ltac:(lia)). nia.
Qed.

Lemma skip_spaces_length (s : string) :
  (String.length (skip_spaces s) <= String.length s)%nat.
Proof.
  induction s as [| c r IH]; cbn [skip_spaces String.length]; [lia |].
  destruct (is_space c); cbn [String.length]; lia.
Qed.

Lemma parseInt_short (s : string) (k : nat) :
  (String.length s <= k)%nat ->
  parseInt s = NaN
  \/ exists z : Z, parseInt s = Int z /\ Z.abs z < 10 ^ Z.of_nat k.
Proof.
  intros Hk. unfold parseInt.
  pose proof (skip_spaces_length s) as Hlen.
  assert (Hdigits : forall t : string,
             (String.length t <= k)%nat ->
             0 <= parse_digits t 0 < 10 ^ Z.of_nat k).
  { intros t Ht. pose proof (parse_digits_bound t 0 ltac:(lia)) as [H0 H1].
    split; [assumption |].
    eapply Z.lt_le_trans; [exact H1 |].
    rewrite Z.mul_1_l. apply Z.pow_le_mono_r; lia. }
  destruct (skip_spaces s) as [| c r] eqn:Es.
  - now left.
  - cbn [String.length] in Hlen.
    destruct (Ascii.eqb c "-"); [| destruct (Ascii.eqb c "+")];
      match goal with
      | |- context [starts_with_digit ?t] =>
          destruct (starts_with_digit t); [right | now left];
          pose proof (Hdigits t) as Hd
      end;
      cbn [String.length] in Hd;
      specialize (Hd ltac:(lia));
      eexists; (split; [reflexivity | lia]).
Qed.

(** X6.  For a request whose [page] parameter, if any, has at most 14
    characters, the page that the decorator hands to the controller has an
    integer number other than [0] and below [10^14] in absolute value, and
    the size [PAGE_SIZE], so that its offset is the safe integer
    [(number - 1) * 10]; and, whatever the query, the page has no shard
    exactly when the [shard] parameter is missing or empty. *)
Theorem PaginationPage_is_resolved (query : string -> option string) :
  ((forall text : string,
       query PAGE_QUERY_PARAM = Some text ->
       (String.length text <= 14)%nat) ->
   exists n : Z,
     n <> 0 /\
     Z.abs n < 10 ^ 14 /\
     num (PaginationPage query) = Int n /\
     size (PaginationPage query) = Int 10 /\
     take (queryParameters (PaginationPage query)) = Int 10 /\
     skip (queryParameters (PaginationPage query)) = Int ((n - 1) * 10) /\
     isSafeInteger (skip (queryParameters (PaginationPage query))) = true) /\
  (shard (PaginationPage query) = None <->
   query SHARD_QUERY_PARAM = None
   \/ query SHARD_QUERY_PARAM = Some EmptyString).
Proof.
  split.
  - intros Hshort. unfold PaginationPage. cbv zeta.
    set (shardNum := parseOptionalInt (query SHARD_QUERY_PARAM)).
    assert (Hn : exists n : Z,
               n <> 0 /\ Z.abs n < 10 ^ 14 /\
               num (getPage (parseOptionalInt (query PAGE_QUERY_PARAM))
                      shardNum) = Int n).
    { destruct (query PAGE_QUERY_PARAM) as [text |] eqn:Eq;
        [| exists 1; repeat split; lia].
      specialize (Hshort text eq_refl).
      destruct text as [| c r]; [exists 1; repeat split; lia |].
      cbn [parseOptionalInt getPage num].
      destruct (parseInt_short (String c r) 14 Hshort) as [-> | (z & -> & Hz)];
        [exists 1; repeat split; lia |].
      cbn [truthy]. destruct (z =? 0) eqn:Ez; cbn [negb FIRST_PAGE].
      - exists 1. repeat split; lia.
      - apply Z.eqb_neq in Ez. exists z. repeat split; assumption. }
    destruct Hn as (n & Hne & Hsmall & Hnum).
    exists n. unfold queryParameters. cbn [take skip]. rewrite Hnum.
    cbn [size getPage sub mul PAGE_SIZE].
    repeat split; try assumption.
    unfold isSafeInteger, MAX_SAFE_INTEGER.
    apply andb_true_iff. split; apply Z.leb_le; lia.
  - unfold PaginationPage. cbn [shard getPage]. unfold parseOptionalInt.
    destruct (query SHARD_QUERY_PARAM) as [[| c r] |]; split; auto;
      try discriminate.
    intros [H | H]; discriminate H.
Qed.

(** The parameters that a link carries, in order. *)
Lemma link_lookup (request : Request) (page : Page) (url key : string) :
  Url.lacks "?" (urlWithoutQueryParameters request) = true ->
  nextLink urlWithoutQueryParameters (Some page) request = Some url ->
  Url.query url key
  = Url.lookup key
      ((PAGE_QUERY_PARAM, toString (num page))
       :: match shard page with
          | Some s => [(SHARD_QUERY_PARAM, toString s)]
          | None => []
          end).
Proof.
  intros Hbase Hlink.
  pose proof (nextLink_text _ urlWithoutQueryParameters request page) as Htext.
  rewrite Hlink in Htext. apply (f_equal (fun o => o ?? url)) in Htext.
  unfold nullish in Htext. subst url.
  rewrite UrlFacts.query_of_link by assumption.
  assert (Hpage : Url.lacks "&" (PAGE_QUERY_PARAM ++ "=" ++ toString (num page))
                  = true).
  { rewrite !UrlFacts.lacks_app, UrlFacts.toString_lacks by now left.
    reflexivity. }
  destruct (shard page) as [s |].
  - change ("&" ++ SHARD_QUERY_PARAM ++ "=" ++ toString s)
      with (String "&" (SHARD_QUERY_PARAM ++ "=" ++ toString s)).
    rewrite UrlFacts.split_on_app by assumption.
    rewrite UrlFacts.split_on_lacks.
    2:{ rewrite !UrlFacts.lacks_app, UrlFacts.toString_lacks by now left.
        reflexivity. }
    cbn [map]. now rewrite !UrlFacts.parameter_of by reflexivity.
  - rewrite UrlFacts.split_on_lacks by assumption.
    cbn [map]. now rewrite UrlFacts.parameter_of by reflexivity.
Qed.

(** X7.  A next link carries the [page] parameter, the [shard] parameter
    when the page has a shard, and nothing else: whatever other parameters
    the request had, they are not in the link. *)
Theorem nextLink_has_no_other_parameter
  (request : Request) (page : Page) (url key : string) :
  Url.lacks "?" (urlWithoutQueryParameters request) = true ->
  nextLink urlWithoutQueryParameters (Some page) request = Some url ->
  key <> PAGE_QUERY_PARAM -> key <> SHARD_QUERY_PARAM ->
  Url.query url key = None.
Proof.
  intros Hbase Hlink Hp Hs.
  rewrite (link_lookup request page url key Hbase Hlink).
  assert (Ep : String.eqb PAGE_QUERY_PARAM key = false)
    by (apply String.eqb_neq; congruence).
  assert (Es : String.eqb SHARD_QUERY_PARAM key = false)
    by (apply String.eqb_neq; congruence).
  destruct (shard page); cbn [Url.lookup]; now rewrite Ep, ?Es.
Qed.

Lemma toString_injective (a b : number) : toString a = toString b -> a = b.
Proof.
  intros H. rewrite <- (JSFacts.parseInt_toString a),
              <- (JSFacts.parseInt_toString b).
  now rewrite H.
Qed.

(** X8.  For one request, pages that differ in number or in shard get
    different links: a link determines the number and the shard (absent or
    not) of the page it was built from. *)
Theorem nextLink_injective
  (request : Request) (page page' : Page) (url : string) :
  Url.lacks "?" (urlWithoutQueryParameters request) = true ->
  nextLink urlWithoutQueryParameters (Some page) request = Some url ->
  nextLink urlWithoutQueryParameters (Some page') request = Some url ->
  num page = num page' /\ shard page = shard page'.
Proof.
  intros Hbase H H'.
  destruct (link_parameters _ _ _ _ _ Hbase H) as [Hp Hs].
  destruct (link_parameters _ _ _ _ _ Hbase H') as [Hp' Hs'].
  rewrite Hp in Hp'. rewrite Hs in Hs'. split.
  - apply toString_injective. congruence.
  - destruct (shard page) as [s |], (shard page') as [s' |];
      cbn [option_map] in Hs'; try discriminate Hs'; [| reflexivity].
    f_equal. apply toString_injective. congruence.
Qed.

End RequestAndLink.

(** X9.  The page that [getNextPage] counts in the same shard starts
    exactly where the current page ends: from a page of size [PAGE_SIZE]
    and integer number [n] other than [-1], when the offsets of both pages
    are safe integers, its offset is the current offset plus the current
    limit, and its limit and shard filter are the same. *)
Theorem next_window_is_adjacent (currentPage : Page) (n : Z) :
  num currentPage = Int n -> n <> -1 -> size currentPage = PAGE_SIZE ->
  isSafeInteger (skip (queryParameters currentPage)) = true ->
  isSafeInteger
    (skip (queryParameters (potentialNextPageInShard currentPage))) = true ->
  skip (queryParameters (potentialNextPageInShard currentPage))
  = (skip (queryParameters currentPage)
     + take (queryParameters currentPage))%js /\
  take (queryParameters (potentialNextPageInShard currentPage))
  = take (queryParameters currentPage) /\
  where_shard (queryParameters (potentialNextPageInShard currentPage))
  = where_shard (queryParameters currentPage).
Proof.
  intros Hn Hneq Hsize _ _. unfold potentialNextPageInShard. rewrite Hn.
  cbn [add].
  rewrite getPage_of_truthy
    by (cbn [truthy]; apply negb_true_iff, Z.eqb_neq; lia).
  unfold queryParameters. rewrite Hn, Hsize.
  cbn [num size shard take skip where_shard sub mul add PAGE_SIZE].
  repeat split. f_equal. lia.
Qed.

(** * The client script *)

Module JSArrayFacts.

Import JSArray.

Lemma insertBy_perm {A : Type} (cmp : A -> A -> Z) (x : A) (l : list A) :
  Permutation (insertBy cmp x l) (x :: l).
Proof.
  induction l as [| y l IH]; cbn [insertBy]; [reflexivity |].
  destruct (0 <? cmp x y); [| reflexivity].
  rewrite IH. apply perm_swap.
Qed.

Lemma sortBy_perm {A : Type} (cmp : A -> A -> Z) (l : list A) :
  Permutation (sortBy cmp l) l.
Proof.
  induction l as [| x l IH]; [reflexivity |].
  cbn [sortBy fold_right]. fold (sortBy cmp l).
  rewrite insertBy_perm. now constructor.
Qed.

Section Sorting.

Context {A : Type} (cmp : A -> A -> Z) (R : A -> A -> Prop).

(** [R x y]: [x] may stand in front of [y]. *)
Hypothesis cmp_keeps : forall x y, cmp x y <= 0 -> R x y.
Hypothesis cmp_swaps : forall x y, 0 < cmp x y -> R y x.

Lemma insertBy_HdRel (x y : A) (l : list A) :
  R y x -> HdRel R y l -> HdRel R y (insertBy cmp x l).
Proof.
  intros Hyx Hl. destruct l as [| z l]; cbn [insertBy]; [now constructor |].
  destruct (0 <? cmp x z); constructor; [| assumption].
  now inversion Hl.
Qed.

Lemma insertBy_sorted (x : A) (l : list A) :
  Sorted R l -> Sorted R (insertBy cmp x l).
Proof.
  induction 1 as [| y l Hl IH Hy]; cbn [insertBy]; [repeat constructor |].
  destruct (0 <? cmp x y) eqn:E.
  - apply Z.ltb_lt in E. constructor; [assumption |].
    apply insertBy_HdRel; [now apply cmp_swaps | assumption].
  - apply Z.ltb_ge in E. repeat constructor; auto.
Qed.

Lemma sortBy_sorted (l : list A) : Sorted R (sortBy cmp l).
Proof.
  induction l as [| x l IH]; [constructor |].
  cbn [sortBy fold_right]. now apply insertBy_sorted.
Qed.

End Sorting.

Lemma Sorted_firstn {A : Type} (R : A -> A -> Prop) (n : nat) (l : list A) :
  Sorted R l -> Sorted R (firstn n l).
Proof.
  intros H. revert n. induction H as [| x l Hl IH Hx]; intros [| n];
    cbn [firstn]; try constructor; auto.
  destruct Hx as [| y l' Hxy]; [destruct n; constructor |].
  destruct n; constructor. assumption.
Qed.

Lemma StronglySorted_app {A : Type} (R : A -> A -> Prop) (l1 l2 : list A) :
  StronglySorted R (l1 ++ l2) ->
  forall a b, In a l1 -> In b l2 -> R a b.
Proof.
  induction l1 as [| x l1 IH]; cbn [app]; intros H a b Ha Hb; [easy |].
  inversion H as [| ? ? Hs Hall]; subst.
  destruct Ha as [<- | Ha]; [| now apply IH].
  rewrite Forall_forall in Hall. apply Hall, in_or_app. now right.
Qed.

End JSArrayFacts.

Section FetchAll.

Context {T : Type} (fetch : string -> result (ApiResponse.t (list T))).

Lemma fetchAll_empty_url (fuel : nat) (rows : list T) :
  Client.fetchAll fetch fuel EmptyString rows = Some rows.
Proof. destruct fuel; reflexivity. Qed.

Lemma fetchAll_step (fuel : nat) (url : string) (rows : list T) :
  url <> EmptyString ->
  Client.fetchAll fetch (S fuel) url rows
  = match fetch url with
    | Ok response =>
        Client.fetchAll fetch fuel (Client.nextUrl response)
          (rows ++ ApiResponse.data response)%list
    | Rejected _ => Some rows
    end.
Proof. destruct url; [contradiction | reflexivity]. Qed.

(** X10.  The loop returns the rows of the pages along the chain of next
    links, in order: it stops at the first response without a next link (or
    with an empty one), and also at the first request that fails, in which
    case the rows gathered so far are returned as if they were all.  One
    request per page and one more are enough for the loop to end. *)
Theorem fetchAll_follows_links
  (url : string) (pages : list (list T)) (fuel : nat) (rows : list T) :
  Client.Walk fetch url pages ->
  (List.length pages < fuel)%nat ->
  Client.fetchAll fetch fuel url rows = Some (rows ++ List.concat pages)%list.
Proof.
  intros Hwalk. revert fuel rows.
  induction Hwalk as [| url reason Hurl Hfail
                      | url response pages Hurl Hok Hwalk IH];
    intros fuel rows Hfuel.
  - rewrite fetchAll_empty_url. cbn [List.concat]. now rewrite app_nil_r.
  - destruct fuel as [| fuel]; [inversion Hfuel |].
    rewrite fetchAll_step, Hfail by assumption.
    cbn [List.concat]. now rewrite app_nil_r.
  - destruct fuel as [| fuel]; [inversion Hfuel |].
    rewrite fetchAll_step, Hok by assumption.
    cbn [List.length] in Hfuel.
    rewrite IH by (apply PeanoNat.lt_S_n; exact Hfuel).
    cbn [List.concat]. now rewrite app_assoc.
Qed.

(** X11.  The loop has no guard against links that turn in a circle: when
    the URLs reachable from [url] all answer with a next link (for instance
    a response that links to itself), no number of requests ends the
    loop. *)
Theorem fetchAll_never_ends_in_a_circle
  (reachable : string -> Prop) (url : string) (fuel : nat) (rows : list T) :
  (forall u : string,
      reachable u ->
      u <> EmptyString /\
      exists response,
        fetch u = Ok response /\ reachable (Client.nextUrl response)) ->
  reachable url ->
  Client.fetchAll fetch fuel url rows = None.
Proof.
  intros Hclosed. revert url rows.
  induction fuel as [| fuel IH]; intros url rows Hurl;
    destruct (Hclosed url Hurl) as (Hne & response & Hok & Hnext).
  - destruct url; [contradiction | reflexivity].
  - rewrite fetchAll_step, Hok by assumption. now apply IH.
Qed.

End FetchAll.

Section TopWorkplaces.

Import Client.

(** The comparison function of the script, and the order it stands for. *)
Local Abbreviation byShifts :=
  (fun a b : WorkplaceActivity.t =>
     Z.of_nat (WorkplaceActivity.shifts b)
     - Z.of_nat (WorkplaceActivity.shifts a)).
Local Abbreviation atLeastAsBusy :=
  (fun a b : WorkplaceActivity.t =>
     (WorkplaceActivity.shifts b <= WorkplaceActivity.shifts a)%nat).

Lemma sorted_activity (l : list WorkplaceActivity.t) :
  Sorted atLeastAsBusy (JSArray.sortBy byShifts l).
Proof. apply JSArrayFacts.sortBy_sorted; cbn beta; intros x y H; lia. Qed.

Lemma strongly_sorted_activity (l : list WorkplaceActivity.t) :
  StronglySorted atLeastAsBusy (JSArray.sortBy byShifts l).
Proof.
  apply Sorted_StronglySorted; [| apply sorted_activity].
  intros a b c Hab Hbc. cbn beta in *. lia.
Qed.

Lemma topWorkplaces_in_activity
  (workplaces : list Workplace.t) (shifts : list Shift.t)
  (a : WorkplaceActivity.t) :
  In a (topWorkplaces workplaces shifts) ->
  In a (workplaceActivity workplaces shifts).
Proof.
  unfold topWorkplaces. intros H.
  apply (Permutation_in a (JSArrayFacts.sortBy_perm byShifts _)).
  rewrite <- (firstn_skipn 3). apply in_or_app. now left.
Qed.

(** X12.  The report has three entries, or one per active workplace when
    there are fewer than three. *)
Theorem topWorkplaces_length
  (workplaces : list Workplace.t) (shifts : list Shift.t) :
  List.length (topWorkplaces workplaces shifts)
  = Nat.min 3 (List.length (activeWorkplaces workplaces)).
Proof.
  unfold topWorkplaces. rewrite length_firstn.
  rewrite (Permutation_length (JSArrayFacts.sortBy_perm _ _)).
  unfold workplaceActivity. now rewrite length_map.
Qed.

(** X13.  The entries of the report stand in descending order of their
    number of shifts. *)
Theorem topWorkplaces_sorted
  (workplaces : list Workplace.t) (shifts : list Shift.t) :
  Sorted atLeastAsBusy (topWorkplaces workplaces shifts).
Proof.
  unfold topWorkplaces. apply JSArrayFacts.Sorted_firstn, sorted_activity.
Qed.

(** X14.  Every entry of the report is an active workplace (status [0]) of
    the list, under its name, with the number of shifts that are its own,
    have a worker and are not cancelled. *)
Theorem topWorkplaces_sound
  (workplaces : list Workplace.t) (shifts : list Shift.t)
  (a : WorkplaceActivity.t) :
  In a (topWorkplaces workplaces shifts) ->
  exists w : Workplace.t,
    In w workplaces /\
    Workplace.status w = 0 /\
    WorkplaceActivity.name a = Workplace.name w /\
    WorkplaceActivity.shifts a
    = List.length
        (filter (fun s =>
                   (Shift.workplaceId s =? Workplace.id w)
                   && match Shift.workerId s with
                      | Some _ => true | None => false
                      end
                   && match Shift.cancelledAt s with
                      | None => true | Some _ => false
                      end)
           shifts).
Proof.
  intros H. apply topWorkplaces_in_activity in H.
  unfold workplaceActivity in H. apply in_map_iff in H as (w & <- & Hw).
  unfold activeWorkplaces in Hw. apply filter_In in Hw as [Hin Hstatus].
  apply Z.eqb_eq in Hstatus.
  exists w. repeat split; assumption.
Qed.

(** X15.  No active workplace that is left out of the report has more
    completed shifts than one that is in it. *)
Theorem topWorkplaces_maximal
  (workplaces : list Workplace.t) (shifts : list Shift.t)
  (w : Workplace.t) (reported : WorkplaceActivity.t) :
  In w workplaces ->
  Workplace.status w = 0 ->
  In reported (topWorkplaces workplaces shifts) ->
  In {| WorkplaceActivity.name := Workplace.name w;
        WorkplaceActivity.shifts :=
          List.length (filter (completedAt w) shifts) |}
     (topWorkplaces workplaces shifts)
  \/ (List.length (filter (completedAt w) shifts)
      <= WorkplaceActivity.shifts reported)%nat.
Proof.
  intros Hin Hstatus Hrep.
  set (a := {| WorkplaceActivity.name := Workplace.name w;
               WorkplaceActivity.shifts :=
                 List.length (filter (completedAt w) shifts) |}).
  assert (Ha : In a (workplaceActivity workplaces shifts)).
  { unfold workplaceActivity. apply in_map_iff. exists w. split; [easy |].
    apply filter_In. split; [assumption | now apply Z.eqb_eq]. }
  apply (Permutation_in a
           (Permutation_sym (JSArrayFacts.sortBy_perm byShifts _))) in Ha.
  pose proof (strongly_sorted_activity (workplaceActivity workplaces shifts))
    as Hsorted.
  rewrite <- (firstn_skipn 3) in Ha, Hsorted.
  apply in_app_or in Ha as [Ha | Ha]; [now left | right].
  exact (JSArrayFacts.StronglySorted_app _ _ _ Hsorted reported a Hrep Ha).
Qed.

(** X16.  A shift that has no worker, or is cancelled, or belongs to no
    active workplace of the list changes nothing in the report, wherever it
    stands among the shifts. *)
Theorem topWorkplaces_ignores_shift
  (workplaces : list Workplace.t) (before after : list Shift.t)
  (s : Shift.t) :
  Shift.workerId s = None
  \/ Shift.cancelledAt s <> None
  \/ (forall w, In w workplaces -> Workplace.status w = 0 ->
                Workplace.id w <> Shift.workplaceId s) ->
  topWorkplaces workplaces (before ++ s :: after)
  = topWorkplaces workplaces (before ++ after).
Proof.
  intros Hs. unfold topWorkplaces, workplaceActivity. do 2 f_equal.
  apply map_ext_in. intros w Hw.
  apply filter_In in Hw as [Hin Hstatus]. apply Z.eqb_eq in Hstatus.
  f_equal. rewrite !filter_app. f_equal. cbn [filter].
  replace (completedAt w s) with false; [reflexivity |].
  symmetry. unfold completedAt.
  destruct Hs as [-> | [Hc | Hw]].
  - now rewrite andb_false_r.
  - destruct (Shift.cancelledAt s); [apply andb_false_r | contradiction].
  - replace (Shift.workplaceId s =? Workplace.id w) with false;
      [reflexivity |].
    symmetry. apply Z.eqb_neq. intros E. now apply (Hw w Hin Hstatus).
Qed.

Lemma filter_either {A : Type} (f g h : A -> bool) (l : list A) :
  (forall x, In x l -> h x = f x || g x) ->
  (forall x, In x l -> f x = true -> g x = false) ->
  List.length (filter h l)
  = (List.length (filter f l) + List.length (filter g l))%nat.
Proof.
  induction l as [| x l IH]; intros Hh Hfg; [reflexivity |].
  assert (IH' : List.length (filter h l)
                = (List.length (filter f l) + List.length (filter g l))%nat).
  { apply IH; intros y Hy; [apply Hh | apply Hfg]; now right. }
  cbn [filter].
  rewrite (Hh x (or_introl eq_refl)).
  pose proof (Hfg x (or_introl eq_refl)) as Hx.
  destruct (f x); [rewrite Hx by reflexivity |]; cbn [orb List.length].
  - rewrite IH'. reflexivity.
  - destruct (g x); cbn [List.length]; rewrite IH'; lia.
Qed.

Lemma counted_once (workplaces : list Workplace.t) (shifts : list Shift.t) :
  NoDup (map Workplace.id workplaces) ->
  list_sum (map (fun w => List.length (filter (completedAt w) shifts))
              workplaces)
  = List.length
      (filter (fun s => existsb (fun w => completedAt w s) workplaces) shifts).
Proof.
  induction workplaces as [| w ws IH]; intros Hnodup.
  - cbn [map list_sum existsb fold_right].
    induction shifts; [reflexivity | assumption].
  - cbn [map] in Hnodup. inversion Hnodup as [| ? ? Hnotin Hrest]; subst.
    cbn [map list_sum fold_right]. fold (list_sum
      (map (fun w => List.length (filter (completedAt w) shifts)) ws)).
    rewrite (IH Hrest). symmetry. apply filter_either.
    + reflexivity.
    + intros s _ Hws. apply not_true_is_false. intros Hex.
      apply existsb_exists in Hex as (w' & Hin & Hw').
      unfold completedAt in Hws, Hw'.
      apply andb_true_iff in Hws as [Hws _]. apply andb_true_iff in Hws as [Hws _].
      apply andb_true_iff in Hw' as [Hw' _]. apply andb_true_iff in Hw' as [Hw' _].
      apply Z.eqb_eq in Hws, Hw'. apply Hnotin.
      rewrite <- Hws, Hw'. now apply in_map.
Qed.

(** X17.  When the active workplaces have different ids, every shift is
    counted for one workplace at most: the counts of all active workplaces
    add up to the number of shifts completed at some active workplace. *)
Theorem workplaceActivity_counts_once
  (workplaces : list Workplace.t) (shifts : list Shift.t) :
  NoDup (map Workplace.id (activeWorkplaces workplaces)) ->
  list_sum (map WorkplaceActivity.shifts (workplaceActivity workplaces shifts))
  = List.length
      (filter (fun s =>
                 existsb (fun w => completedAt w s)
                   (activeWorkplaces workplaces))
         shifts).
Proof.
  intros Hnodup. unfold workplaceActivity. rewrite map_map.
  cbn [WorkplaceActivity.shifts]. now apply counted_once.
Qed.

End TopWorkplaces.

(** * Instances of the further properties *)

Lemma getNextPage_advances_witness :
  num (getPage (Some (Int 1)) (Some (Int 0))) = Int 1 /\
  shard (getPage (Some (Int 1)) (Some (Int 0))) ?? DEFAULT_SHARD = Int 0 /\
  isSafeInteger (Int 1) = true /\
  isSafeInteger (Int 0) = true /\
  getNextPage 1 (getPage (Some (Int 1)) (Some (Int 0))) (always 1)
  = Ok (Some (getPage (Some (Int 2)) (Some (Int 0)))) /\
  exists n' s' : Z,
    num (getPage (Some (Int 2)) (Some (Int 0))) = Int n' /\
    shard (getPage (Some (Int 2)) (Some (Int 0))) ?? DEFAULT_SHARD = Int s' /\
    ((s' = 0 /\ 1 < n') \/ (s' = 0 + 1 /\ s' <= 1 /\ n' = 1)).
Proof.
  do 5 (split; [reflexivity |]).
  apply (getNextPage_advances 1 (getPage (Some (Int 1)) (Some (Int 0)))
           (getPage (Some (Int 2)) (Some (Int 0))) (always 1) 1 0);
    reflexivity.
Defined.

Lemma getNextPage_probes_two_pages_witness :
  countOnPage (potentialNextPageInShard (getPage None None)) (always 0)
  = countOnPage (potentialNextPageInShard (getPage None None))
      Sample.onlyShardSeven /\
  countOnPage (potentialPageInNextShard (getPage None None)) (always 0)
  = countOnPage (potentialPageInNextShard (getPage None None))
      Sample.onlyShardSeven /\
  getNextPage 9 (getPage None None) (always 0)
  = getNextPage 9 (getPage None None) Sample.onlyShardSeven.
Proof.
  split; [reflexivity |]. split; [reflexivity |].
  apply getNextPage_probes_two_pages; reflexivity.
Defined.

Lemma getNextPage_rejected_iff_witness :
  countOnPage (potentialNextPageInShard (getPage None None)) Sample.unreachable
  = Rejected "connection refused" /\
  getNextPage 9 (getPage None None) Sample.unreachable
  = Rejected "connection refused".
Proof.
  split; [reflexivity |].
  apply (proj2 (getNextPage_rejected_iff 9 (getPage None None)
                  Sample.unreachable "connection refused")).
  left. reflexivity.
Defined.

Lemma getNextPage_in_last_shard_witness :
  shard (getPage None (Some (Int 9))) ?? DEFAULT_SHARD = Int 9 /\
  9 <= 9 /\
  getNextPage 9 (getPage None (Some (Int 9))) (always 1)
  = (c <- countOnPage (potentialNextPageInShard (getPage None (Some (Int 9))))
            (always 1) ;;
     Ok (if (c >? Int 0)%js
         then Some (potentialNextPageInShard (getPage None (Some (Int 9))))
         else None)).
Proof.
  split; [reflexivity |]. split; [discriminate |].
  apply (getNextPage_in_last_shard 9 (getPage None (Some (Int 9)))
           (always 1) 9); [reflexivity | discriminate].
Defined.

Lemma getNextPage_counted_witness :
  getNextPage 9 (getPage None None) Sample.onlyShardSeven = Ok None /\
  getNextPage 9 (getPage None (Some (Int 6))) Sample.onlyShardSeven
  = Ok (Some (getPage None (Some (Int 7)))) /\
  exists c : Z,
    countOnPage (getPage None (Some (Int 7))) Sample.onlyShardSeven
    = Ok (Int c) /\ 0 < c.
Proof.
  split; [reflexivity |]. split; [reflexivity |].
  apply (getNextPage_counted 9 (getPage None (Some (Int 6)))
           (getPage None (Some (Int 7))) Sample.onlyShardSeven).
  reflexivity.
Defined.

Lemma PaginationPage_is_resolved_witness :
  (forall text : string,
      Url.query "http://localhost:3000/shifts?page=-42&shard=" PAGE_QUERY_PARAM
      = Some text ->
      (String.length text <= 14)%nat) /\
  (exists n : Z,
      n <> 0 /\
      Z.abs n < 10 ^ 14 /\
      num (PaginationPage
             (Url.query "http://localhost:3000/shifts?page=-42&shard="))
      = Int n /\
      size (PaginationPage
              (Url.query "http://localhost:3000/shifts?page=-42&shard="))
      = Int 10 /\
      take (queryParameters
              (PaginationPage
                 (Url.query "http://localhost:3000/shifts?page=-42&shard=")))
      = Int 10 /\
      skip (queryParameters
              (PaginationPage
                 (Url.query "http://localhost:3000/shifts?page=-42&shard=")))
      = Int ((n - 1) * 10) /\
      isSafeInteger
        (skip (queryParameters
                 (PaginationPage
                    (Url.query
                       "http://localhost:3000/shifts?page=-42&shard="))))
      = true) /\
  Url.query "http://localhost:3000/shifts?page=-42&shard=" SHARD_QUERY_PARAM
  = Some EmptyString /\
  shard (PaginationPage
           (Url.query "http://localhost:3000/shifts?page=-42&shard="))
  = None.
Proof.
  assert (H : forall text : string,
             Url.query "http://localhost:3000/shifts?page=-42&shard="
               PAGE_QUERY_PARAM = Some text ->
             (String.length text <= 14)%nat).
  { intros text E. injection E as <-. cbn. repeat constructor. }
  split; [exact H |]. split.
  - exact (proj1 (PaginationPage_is_resolved
                    (Url.query "http://localhost:3000/shifts?page=-42&shard="))
             H).
  - split; [reflexivity |].
    apply (proj2 (proj2 (PaginationPage_is_resolved
                           (Url.query
                              "http://localhost:3000/shifts?page=-42&shard=")))).
    right. reflexivity.
Defined.

Lemma nextLink_has_no_other_parameter_witness :
  Url.query "http://localhost:3000/shifts?status=open&page=1" "status"
  = Some "open" /\
  Url.lacks "?" (urlOf "http://localhost:3000/shifts?status=open&page=1")
  = true /\
  nextLink urlOf (Some (getPage (Some (Int 2)) None))
    "http://localhost:3000/shifts?status=open&page=1"
  = Some "http://localhost:3000/shifts?page=2" /\
  "status" <> PAGE_QUERY_PARAM /\ "status" <> SHARD_QUERY_PARAM /\
  Url.query "http://localhost:3000/shifts?page=2" "status" = None.
Proof.
  split; [reflexivity |]. split; [reflexivity |]. split; [reflexivity |].
  split; [discriminate |]. split; [discriminate |].
  apply (nextLink_has_no_other_parameter string urlOf
           "http://localhost:3000/shifts?status=open&page=1"
           (getPage (Some (Int 2)) None));
    solve [reflexivity | discriminate].
Defined.

Lemma nextLink_injective_witness :
  Url.lacks "?" (urlOf "http://localhost:3000/shifts") = true /\
  nextLink urlOf (Some {| num := Int 2; size := Int 10; shard := None |})
    "http://localhost:3000/shifts"
  = Some "http://localhost:3000/shifts?page=2" /\
  nextLink urlOf (Some {| num := Int 2; size := Int 25; shard := None |})
    "http://localhost:3000/shifts"
  = Some "http://localhost:3000/shifts?page=2" /\
  Int 2 = Int 2 /\ @None number = None.
Proof.
  split; [reflexivity |]. split; [reflexivity |]. split; [reflexivity |].
  apply (nextLink_injective string urlOf "http://localhost:3000/shifts"
           {| num := Int 2; size := Int 10; shard := None |}
           {| num := Int 2; size := Int 25; shard := None |}
           "http://localhost:3000/shifts?page=2"); reflexivity.
Defined.

Lemma next_window_is_adjacent_witness :
  num (getPage (Some (Int 3)) None) = Int 3 /\ 3 <> -1 /\
  size (getPage (Some (Int 3)) None) = PAGE_SIZE /\
  isSafeInteger (skip (queryParameters (getPage (Some (Int 3)) None)))
  = true /\
  isSafeInteger
    (skip (queryParameters
             (potentialNextPageInShard (getPage (Some (Int 3)) None))))
  = true /\
  skip (queryParameters (potentialNextPageInShard (getPage (Some (Int 3)) None)))
  = Int 30.
Proof.
  split; [reflexivity |]. split; [discriminate |].
  do 3 (split; [reflexivity |]).
  refine (proj1 (next_window_is_adjacent (getPage (Some (Int 3)) None) 3
                   eq_refl _ eq_refl eq_refl eq_refl)).
  discriminate.
Defined.

Lemma twoPages_walk :
  Client.Walk Sample.twoPages "http://localhost:3000/workplaces"
    [firstn 3 Sample.workplaces; skipn 3 Sample.workplaces].
Proof.
  apply (Client.walk_page Sample.twoPages "http://localhost:3000/workplaces"
           (ApiResponse.make (firstn 3 Sample.workplaces)
              (Some {| next :=
                         Some "http://localhost:3000/workplaces?page=2" |})));
    [discriminate | reflexivity |].
  apply (Client.walk_page Sample.twoPages
           "http://localhost:3000/workplaces?page=2"
           (ApiResponse.make (skipn 3 Sample.workplaces)
              (Some {| next := None |})));
    [discriminate | reflexivity |].
  exact (Client.walk_end Sample.twoPages).
Defined.

Lemma fetchAll_follows_links_witness :
  Client.Walk Sample.twoPages "http://localhost:3000/workplaces"
    [firstn 3 Sample.workplaces; skipn 3 Sample.workplaces] /\
  (2 < 3)%nat /\
  Client.fetchAllWorkplaces Sample.twoPages 3 = Some Sample.workplaces.
Proof.
  split; [exact twoPages_walk |]. split; [apply le_n |].
  apply (fetchAll_follows_links Sample.twoPages
           "http://localhost:3000/workplaces"
           [firstn 3 Sample.workplaces; skipn 3 Sample.workplaces] 3 []).
  - exact twoPages_walk.
  - apply le_n.
Defined.

Lemma fetchAll_never_ends_in_a_circle_witness :
  (forall u : string,
      u = "http://localhost:3000/shifts" ->
      u <> EmptyString /\
      exists response,
        Sample.selfLinked u = Ok response /\
        Client.nextUrl response = "http://localhost:3000/shifts") /\
  Client.fetchAllShifts Sample.selfLinked 1000 = None.
Proof.
  assert (H : forall u : string,
             u = "http://localhost:3000/shifts" ->
             u <> EmptyString /\
             exists response,
               Sample.selfLinked u = Ok response /\
               Client.nextUrl response = "http://localhost:3000/shifts").
  { intros u ->. split; [discriminate |].
    exists (ApiResponse.make []
              (Some {| next := Some "http://localhost:3000/shifts" |})).
    split; reflexivity. }
  split; [exact H |].
  apply (fetchAll_never_ends_in_a_circle Sample.selfLinked
           (fun u => u = "http://localhost:3000/shifts")
           "http://localhost:3000/shifts" 1000 [] H).
  reflexivity.
Defined.

Lemma topWorkplaces_sound_witness :
  Client.topWorkplaces Sample.workplaces Sample.shifts
  = [ WorkplaceActivity.make "Phobos Port" 3;
      WorkplaceActivity.make "Lunar Logistics" 2;
      WorkplaceActivity.make "Mars Cafe" 1 ] /\
  exists w : Workplace.t,
    In w Sample.workplaces /\
    Workplace.status w = 0 /\
    "Lunar Logistics" = Workplace.name w /\
    2%nat
    = List.length
        (filter (fun s =>
                   (Shift.workplaceId s =? Workplace.id w)
                   && match Shift.workerId s with
                      | Some _ => true | None => false
                      end
                   && match Shift.cancelledAt s with
                      | None => true | Some _ => false
                      end)
           Sample.shifts).
Proof.
  split; [reflexivity |].
  apply (topWorkplaces_sound Sample.workplaces Sample.shifts
           (WorkplaceActivity.make "Lunar Logistics" 2)).
  right. left. reflexivity.
Defined.

Lemma topWorkplaces_maximal_witness :
  In (Workplace.make 4 "Red Rock Diner" 0) Sample.workplaces /\
  In (WorkplaceActivity.make "Mars Cafe" 1)
    (Client.topWorkplaces Sample.workplaces Sample.shifts) /\
  (In (WorkplaceActivity.make "Red Rock Diner" 0)
     (Client.topWorkplaces Sample.workplaces Sample.shifts)
   \/ (0 <= 1)%nat).
Proof.
  split; [do 3 right; left; reflexivity |].
  split; [do 2 right; left; reflexivity |].
  apply (topWorkplaces_maximal Sample.workplaces Sample.shifts
           (Workplace.make 4 "Red Rock Diner" 0)
           (WorkplaceActivity.make "Mars Cafe" 1)).
  - do 3 right. left. reflexivity.
  - reflexivity.
  - do 2 right. left. reflexivity.
Defined.

Lemma topWorkplaces_ignores_shift_witness :
  Shift.workerId (Sample.shift 4 2 None None) = None /\
  Client.topWorkplaces Sample.workplaces
    (firstn 3 Sample.shifts ++ Sample.shift 4 2 None None
       :: skipn 4 Sample.shifts)%list
  = Client.topWorkplaces Sample.workplaces
      (firstn 3 Sample.shifts ++ skipn 4 Sample.shifts)%list.
Proof.
  split; [reflexivity |].
  apply topWorkplaces_ignores_shift. left. reflexivity.
Defined.

Lemma workplaceActivity_counts_once_witness :
  NoDup (map Workplace.id (Client.activeWorkplaces Sample.workplaces)) /\
  list_sum (map WorkplaceActivity.shifts
              (Client.workplaceActivity Sample.workplaces Sample.shifts))
  = 6%nat.
Proof.
  assert (H : NoDup (map Workplace.id
                       (Client.activeWorkplaces Sample.workplaces))).
  { repeat (constructor; [cbn; intuition discriminate |]). constructor. }
  split; [exact H |].
  exact (workplaceActivity_counts_once Sample.workplaces Sample.shifts H).
Defined.
